(** * Order lifecycle of the liquidity-providing examples

    A shallow embedding of
      - examples/avellaneda_stoikov_market_maker.py
                                        (module [AvellanedaStoikov]),
      - examples/basic_adding_2.py                   (module [BasicAdding2]),
      - examples/basic_adding_3.py                   (module [BasicAdding3]),
    followed by the properties of the quote formulas, of the per-side order
    state machine, of the cancelled-order registry and of the reconciliation
    poller.

    Conventions.  A Python [float] is read as a real number ([R]): the
    statements below are about the formulas and the comparisons of the code,
    not about binary rounding; [math.exp] is the real exponential, so its
    underflow to [0.0] and its [OverflowError] are outside the model.  A
    Python [int] (order ids, millisecond
    timestamps) is a [Z].  The handlers are written in a small state and
    exception monad; every call that leaves the process (clock, exchange
    gateway, info queries) is answered by an [Env] and counted, and every
    request sent to the gateway is appended to the log [sent]. *)

From Stdlib Require Import Reals Lra Lia ZArith List String Bool.
From stdpp Require Import gmap strings.
From Equations Require Import Equations.
Import ListNotations.

Local Open Scope string_scope.
Local Open Scope list_scope.
Local Open Scope R_scope.

(** ** Python values *)

(** Comparisons of floats, as booleans. *)
Definition Rgtb (x y : R) : bool := if Rgt_dec x y then true else false.
Definition Rltb (x y : R) : bool := if Rlt_dec x y then true else false.

(** The exceptions the modelled code can raise. *)
Inductive exn : Type :=
| KeyError (key : string)
| IndexError
| ZeroDivisionError.

(** The result of a pure call that may raise. *)
Inductive result (T : Type) : Type :=
| Returns (v : T)
| Raises (e : exn).
Arguments Returns {T} v.
Arguments Raises {T} e.

(** ** avellaneda_stoikov_market_maker.py *)

Module AvellanedaStoikov.

(** [__init__] stores the three parameters. *)
Record AvellanedaStoikovMarketMaker : Type := mkMarketMaker
  { gamma : R; k : R; r : R }.

(** The returned dict [{"bid": (price, size), "ask": (price, size)}]. *)
Record Quotes : Type := mkQuotes
  { bid : R * R; ask : R * R }.

(** [calculate_quotes], lines 11-25.  The two divisions by [l] raise
    [ZeroDivisionError] when [l] is zero. *)
Definition calculate_quotes (self : AvellanedaStoikovMarketMaker)
    (mid_price spread inventory vol dt : R) : result Quotes :=
  let m := (- gamma self) * spread / 2 in
  let delta := gamma self * (vol ^ 2) * dt in
  let l := k self * exp ((- r self) * dt) in
  let bid_price := mid_price - m - inventory * delta / 2 - l in
  let ask_price := mid_price + m + inventory * delta / 2 + l in
  if Req_dec_T l 0 then Raises ZeroDivisionError
  else
    let bid_size := (1 / 2) * (1 + inventory * delta / l) in
    let ask_size := (1 / 2) * (1 - inventory * delta / l) in
    Returns {| bid := (bid_price, bid_size); ask := (ask_price, ask_size) |}.

End AvellanedaStoikov.

(** ** Data shared by basic_adding_2.py and basic_adding_3.py *)

(** Modelled from the spec: the type [Side] of hyperliquid.utils.types, which
    is not among the sources; an enumeration of the two sides (section 3),
    written with the literals ["A"] (ask) and ["B"] (bid) that the sources
    compare against. *)
Inductive Side : Type := A | B.

Definition Side_eqb (s1 s2 : Side) : bool :=
  match s1, s2 with
  | A, A | B, B => true
  | A, B | B, A => false
  end.

(** [side_to_int] and [side_to_uint], identical in both files. *)
Definition side_to_int (side : Side) : Z :=
  match side with A => 1%Z | B => (-1)%Z end.

Definition side_to_uint (side : Side) : nat :=
  match side with A => 1%nat | B => 0%nat end.


(** The tagged dictionaries [InFlightOrder], [Resting], [Cancelled] and [Gap].
    A gap state is built with a price as well as an order id (basic_adding_2,
    line 126). basic_adding_3 never builds a [Gap]. *)
Inductive ProvideState : Type :=
| InFlightOrder (time : Z)
| Resting (px : R) (oid : Z)
| Cancelled
| Gap (px : R) (oid : Z).

(** [provide_state["type"]]. *)
Definition state_type (st : ProvideState) : string :=
  match st with
  | InFlightOrder _ => "in_flight_order"
  | Resting _ _ => "resting"
  | Cancelled => "cancelled"
  | Gap _ _ => "gap"
  end.

(** [provide_state["type"] == tag]. *)
Definition type_is (st : ProvideState) (tag : string) : bool :=
  (state_type st =? tag)%string.

(** [provide_state["oid"]], [provide_state["px"]], [provide_state["time"]]:
    a key the dictionary does not hold raises [KeyError]. *)
Definition getitem_oid (st : ProvideState) : result Z :=
  match st with
  | Resting _ oid | Gap _ oid => Returns oid
  | InFlightOrder _ | Cancelled => Raises (KeyError "oid")
  end.

Definition getitem_px (st : ProvideState) : result R :=
  match st with
  | Resting px _ | Gap px _ => Returns px
  | InFlightOrder _ | Cancelled => Raises (KeyError "px")
  end.

Definition getitem_time (st : ProvideState) : result Z :=
  match st with
  | InFlightOrder time => Returns time
  | Resting _ _ | Cancelled | Gap _ _ => Raises (KeyError "time")
  end.

(** One price level of a book message, and the message data: [levels[0]]
    holds the bids and [levels[1]] the asks, best first. *)
Record L2Level : Type := mkLevel { level_px : R; level_sz : R }.

Record L2BookData : Type := mkBook
  { coin : string; levels : list (list L2Level) }.

(** The data of a user-events message: the fills, when the key is there. *)
Record UserEventsData : Type := mkUserEvents { fills : option string }.

(** Gateway requests, as they are logged. An order is always sent with
    [{"limit": {"tif": "Alo"}}]. *)
Inductive Request : Type :=
| CancelReq (c : string) (oid : Z)
| OrderReq (c : string) (is_buy : bool) (sz px : R).

(** Gateway and info replies. *)
Record CancelResponse : Type := mkCancelResponse { cancel_status : string }.

Inductive OrderStatus : Type :=
| StatusResting (oid : Z)
| StatusOther (key : string).

Record OrderResponse : Type := mkOrderResponse
  { order_status : string; statuses : list OrderStatus }.

Record OpenOrder : Type := mkOpenOrder { open_coin : string; open_oid : Z }.

Record AssetPosition : Type := mkAssetPosition
  { position_coin : string; szi : R }.

(** Everything a handler obtains from outside the three source files. The
    replies are indexed by the number of outside calls made so far, so that
    two calls with the same arguments may be answered differently.
    [SIDES] is the constant of hyperliquid.utils.types and [round_5g]
    stands for [float(f"{x:.5g}")]; both are taken as parameters. *)
Record Env : Type := mkEnv
  { SIDES : list Side;
    round_5g : R -> R;
    timestamp_at : nat -> Z;
    cancel_at : nat -> CancelResponse;
    order_at : nat -> OrderResponse;
    open_orders_at : nat -> list OpenOrder;
    user_state_at : nat -> list AssetPosition }.

(** The fields of a [BasicAdder] object that the handlers read and write. *)
Record BasicAdder : Type := mkAdder
  { position : option R;
    provide_state : Side -> ProvideState;
    recently_cancelled_oid_to_time : gmap Z Z }.

(** The object together with the bookkeeping of a run. *)
Record Run : Type := mkRun
  { self : BasicAdder;
    calls : nat;
    sent : list Request;
    fills_file : list string }.

(** [__init__]: no position, both sides cancelled, empty registry. *)
Definition init : Run :=
  {| self := {| position := None;
                provide_state := fun _ => Cancelled;
                recently_cancelled_oid_to_time := ∅ |};
     calls := 0; sent := []; fills_file := [] |}.

(** ** The monad of the handlers *)

(** How a block of statements ends: normally, by [continue], or by an
    exception. *)
Inductive outcome (T : Type) : Type :=
| Normal (v : T)
| Continue
| Raise (e : exn).
Arguments Normal {T} v.
Arguments Continue {T}.
Arguments Raise {T} e.

Definition M (T : Type) : Type := Run -> outcome T * Run.

Definition ret {T} (v : T) : M T := fun w => (Normal v, w).

Definition bind {T U} (m : M T) (f : T -> M U) : M U :=
  fun w =>
    match m w with
    | (Normal v, w') => f v w'
    | (Continue, w') => (Continue, w')
    | (Raise e, w') => (Raise e, w')
    end.

Declare Scope monad_scope.
Delimit Scope monad_scope with monad.
Notation "x <- m ;; f" := (bind m (fun x => f))
  (at level 100, m at next level, right associativity) : monad_scope.
Notation "m ;;; f" := (bind m (fun _ => f))
  (at level 100, right associativity) : monad_scope.
Local Open Scope monad_scope.

Definition continue {T} : M T := fun w => (Continue, w).

Definition raise {T} (e : exn) : M T := fun w => (Raise e, w).

Definition lift {T} (v : result T) : M T :=
  match v with
  | Returns v => ret v
  | Raises e => raise e
  end.

(** [l[i]] on a Python list. *)
Definition getitem {T} (l : list T) (i : nat) : M T :=
  match l !! i with
  | Some v => ret v
  | None => raise IndexError
  end.

(** [for x in l: body]: a [continue] in the body ends the iteration, an
    exception ends the loop. *)
Fixpoint for_each {T} (l : list T) (body : T -> M unit) : M unit :=
  match l with
  | [] => ret tt
  | x :: rest =>
      fun w =>
        match body x w with
        | (Raise e, w') => (Raise e, w')
        | (_, w') => for_each rest body w'
        end
  end.

(** Reads and writes of the object's fields. *)
Definition get_position : M (option R) :=
  fun w => (Normal (position (self w)), w).

Definition set_self (s : BasicAdder) (w : Run) : Run :=
  {| self := s; calls := calls w; sent := sent w;
     fills_file := fills_file w |}.

Definition set_position (p : option R) : M unit :=
  fun w =>
    (Normal tt,
     set_self {| position := p;
                 provide_state := provide_state (self w);
                 recently_cancelled_oid_to_time :=
                   recently_cancelled_oid_to_time (self w) |} w).

Definition get_provide_state (side : Side) : M ProvideState :=
  fun w => (Normal (provide_state (self w) side), w).

Definition update_side (f : Side -> ProvideState) (side : Side)
    (st : ProvideState) : Side -> ProvideState :=
  fun s => if Side_eqb s side then st else f s.

Definition set_provide_state (side : Side) (st : ProvideState) : M unit :=
  fun w =>
    (Normal tt,
     set_self {| position := position (self w);
                 provide_state := update_side (provide_state (self w)) side st;
                 recently_cancelled_oid_to_time :=
                   recently_cancelled_oid_to_time (self w) |} w).

Definition get_registry : M (gmap Z Z) :=
  fun w => (Normal (recently_cancelled_oid_to_time (self w)), w).

Definition set_registry (reg : gmap Z Z) : M unit :=
  fun w =>
    (Normal tt,
     set_self {| position := position (self w);
                 provide_state := provide_state (self w);
                 recently_cancelled_oid_to_time := reg |} w).

(** [self.recently_cancelled_oid_to_time[oid] = t]. *)
Definition registry_setitem (oid t : Z) : M unit :=
  reg <- get_registry ;; set_registry (<[oid := t]> reg).

(** Outside calls. *)
Section Outside.
Variable env : Env.

Definition called (w : Run) (reqs : list Request) : Run :=
  {| self := self w; calls := S (calls w); sent := sent w ++ reqs;
     fills_file := fills_file w |}.

Definition get_timestamp_ms : M Z :=
  fun w => (Normal (timestamp_at env (calls w)), called w []).

(** [self.exchange.cancel(coin, oid)]. *)
Definition exchange_cancel (c : string) (oid : Z) : M CancelResponse :=
  fun w => (Normal (cancel_at env (calls w)), called w [CancelReq c oid]).

(** [self.exchange.order(coin, is_buy, sz, px, {"limit": {"tif": "Alo"}})]. *)
Definition exchange_order (c : string) (is_buy : bool) (sz px : R)
    : M OrderResponse :=
  fun w =>
    (Normal (order_at env (calls w)), called w [OrderReq c is_buy sz px]).

(** [self.info.open_orders(address)] and [self.info.user_state(address)]. *)
Definition info_open_orders : M (list OpenOrder) :=
  fun w => (Normal (open_orders_at env (calls w)), called w []).

Definition info_user_state : M (list AssetPosition) :=
  fun w => (Normal (user_state_at env (calls w)), called w []).
End Outside.

(** [open("fills", "a+")] then two writes: one line appended. *)
Definition append_fills (line : string) : M unit :=
  fun w =>
    (Normal tt,
     {| self := self w; calls := calls w; sent := sent w;
        fills_file := fills_file w ++ [line] |}).

(** [on_user_events] is the same in both files (basic_adding_2 lines 185-196,
    basic_adding_3 lines 179-190). *)
Definition on_user_events (user_events_data : UserEventsData) : M unit :=
  match fills user_events_data with
  | Some line => append_fills line
  | None => ret tt
  end ;;;
  set_position None.

(** The pruning of the registry (basic_adding_2 lines 213-217, basic_adding_3
    lines 209-213): the comprehension keeps the entries for which
    [current_time - timestamp > 30000]. *)
Definition prune (current_time : Z) (reg : gmap Z Z) : gmap Z Z :=
  filter (fun entry => (current_time - entry.2 > 30000)%Z) reg.

(** One turn of the loop over [self.provide_state.values()] in [poll]:
    [ok_oids.add(provide_state["oid"])] when the state has an expected type. *)
Definition add_state_oid (expected : ProvideState -> bool)
    (ok_oids : gset Z) (st : ProvideState) : result (gset Z) :=
  if expected st
  then match getitem_oid st with
       | Returns oid => Returns ({[oid]} ∪ ok_oids)
       | Raises e => Raises e
       end
  else Returns ok_oids.

(** The first position of the instrument, if there is one (the loop with
    [break] at the end of [poll]). *)
Definition find_position (c : string) (l : list AssetPosition)
    : option AssetPosition :=
  List.find (fun p => (position_coin p =? c)%string) l.

(** One turn of the [while True] loop of [poll], up to [time.sleep(10)].
    [expected] is the test on the state type that differs between the two
    files; the values of [self.provide_state] are visited in the order of its
    keys, ["A"] then ["B"]. *)
Definition poll_cycle (env : Env) (COIN : string)
    (expected : ProvideState -> bool) : M unit :=
  open_orders <- info_open_orders env ;;
  reg <- get_registry ;;
  st_A <- get_provide_state A ;;
  st_B <- get_provide_state B ;;
  ok_oids <- lift (add_state_oid expected (dom reg) st_A) ;;
  ok_oids <- lift (add_state_oid expected ok_oids st_B) ;;
  for_each open_orders
    (fun open_order =>
       if (open_coin open_order =? COIN)%string
          && negb (bool_decide (open_oid open_order ∈ ok_oids))
       then _ <- exchange_cancel env (open_coin open_order)
                   (open_oid open_order) ;;
            ret tt
       else ret tt) ;;;
  current_time <- get_timestamp_ms env ;;
  reg <- get_registry ;;
  set_registry (prune current_time reg) ;;;
  user_state <- info_user_state env ;;
  match find_position COIN user_state with
  | Some p => set_position (Some (szi p))
  | None => ret tt
  end.

(** The cancel idiom of [on_book_update] (basic_adding_2 lines 96-103 and
    140-147, basic_adding_3 lines 138-145): on an ["ok"] reply the order id is
    registered with the current time and the side becomes cancelled; any
    other reply leaves the state as it is. *)
Definition cancel_order (env : Env) (COIN : string) (side : Side) (oid : Z)
    : M unit :=
  response <- exchange_cancel env COIN oid ;;
  if (cancel_status response =? "ok")%string
  then t <- get_timestamp_ms env ;;
       registry_setitem oid t ;;;
       set_provide_state side Cancelled
  else ret tt.

(** The placement idiom of [on_book_update] (basic_adding_2 lines 115-131 and
    167-183, basic_adding_3 lines 161-177): the side is in flight while the
    order is sent; a reply ["ok"] whose first status holds ["resting"] makes
    the side [acked px oid]; a reply ["ok"] without it makes the side
    cancelled and forgets the position; any other reply changes nothing. *)
Definition place_order (env : Env) (COIN : string) (side : Side)
    (sz price : R) (acked : R -> Z -> ProvideState) : M unit :=
  let px := round_5g env price in
  t <- get_timestamp_ms env ;;
  set_provide_state side (InFlightOrder t) ;;;
  response <- exchange_order env COIN (Side_eqb side B) sz px ;;
  if (order_status response =? "ok")%string
  then status <- getitem (statuses response) 0 ;;
       match status with
       | StatusResting oid => set_provide_state side (acked px oid)
       | StatusOther _ =>
           set_provide_state side Cancelled ;;;
           set_position None
       end
  else ret tt.

(** The drift and stale in-flight checks on the state read at the start of
    the iteration (basic_adding_2 lines 133-152, basic_adding_3 lines
    131-150): a resting order further than [threshold] from [target] is
    cancelled, an order in flight for more than 10 s is forgotten. *)
Definition drift_check (env : Env) (COIN : string) (side : Side)
    (provide_state : ProvideState) (target threshold : R) : M unit :=
  if type_is provide_state "resting"
  then px <- lift (getitem_px provide_state) ;;
       let distance := Rabs (target - px) in
       if Rgtb distance threshold
       then oid <- lift (getitem_oid provide_state) ;;
            cancel_order env COIN side oid
       else ret tt
  else if type_is provide_state "in_flight_order"
  then now <- get_timestamp_ms env ;;
       time <- lift (getitem_time provide_state) ;;
       if (now - time >? 10000)%Z
       then set_provide_state side Cancelled
       else ret tt
  else ret tt.

(** ** basic_adding_2.py *)

Module BasicAdding2.

Definition DEPTH : R := 0.001.
Definition ALLOWABLE_DEVIATION : R := 0.5.
Definition MAX_POSITION : R := 20.
Definition COIN : string := "ARB".

(** [gap_price], lines 86-89. *)
Definition gap_price (side : Side) (best_bid best_ask ideal_distance : R)
    : R :=
  match side with
  | A => best_bid + ideal_distance * 1.5
  | B => best_ask - ideal_distance * 1.5
  end.

(** The test of line 85. *)
Definition gap_condition (best_bid best_ask ideal_distance : R) : bool :=
  Rgtb (best_ask - best_bid) (2 * ideal_distance).

Section Handlers.
Variable env : Env.

(** Lines 91-103: cancel whatever is not cancelled. *)
Definition gap_cancel (side : Side) (provide_state : ProvideState)
    : M unit :=
  if negb (type_is provide_state "cancelled")
  then oid <- lift (getitem_oid provide_state) ;;
       cancel_order env COIN side oid
  else ret tt.

(** Lines 105-131: place the gap order if the side is now cancelled. *)
Definition gap_place (side : Side) (gap_px : R) : M unit :=
  current <- get_provide_state side ;;
  if type_is current "cancelled"
  then pos <- get_position ;;
       match pos with
       | None => continue
       | Some position =>
           let sz := MAX_POSITION + position * IZR (side_to_int side) in
           if Rltb (sz * gap_px) 10 then continue
           else place_order env COIN side sz gap_px Gap
       end
  else ret tt.

(** Lines 154-183: place an order at the ideal price if the side is
    cancelled. *)
Definition maybe_place (side : Side) (ideal_price : R) : M unit :=
  provide_state <- get_provide_state side ;;
  if type_is provide_state "cancelled"
  then pos <- get_position ;;
       match pos with
       | None => continue
       | Some position =>
           let sz := MAX_POSITION + position * IZR (side_to_int side) in
           if Rltb (sz * ideal_price) 10 then continue
           else place_order env COIN side sz ideal_price Resting
       end
  else ret tt.

(** The body of [for side in SIDES], lines 74-183. *)
Definition on_book_update_side (book_data : L2BookData) (side : Side)
    : M unit :=
  side_levels <- getitem (levels book_data) (side_to_uint side) ;;
  top <- getitem side_levels 0 ;;
  let book_price := level_px top in
  let ideal_distance := book_price * DEPTH in
  let ideal_price :=
    book_price + ideal_distance * IZR (side_to_int side) in
  provide_state <- get_provide_state side ;;
  bids <- getitem (levels book_data) 0 ;;
  bid0 <- getitem bids 0 ;;
  let best_bid := level_px bid0 in
  asks <- getitem (levels book_data) 1 ;;
  ask0 <- getitem asks 0 ;;
  let best_ask := level_px ask0 in
  (if gap_condition best_bid best_ask ideal_distance
   then gap_cancel side provide_state ;;;
        gap_place side (gap_price side best_bid best_ask ideal_distance)
   else ret tt) ;;;
  drift_check env COIN side provide_state ideal_price
    (ALLOWABLE_DEVIATION * ideal_distance) ;;;
  maybe_place side ideal_price.

(** [on_book_update], lines 67-183. *)
Definition on_book_update (book_data : L2BookData) : M unit :=
  if negb (coin book_data =? COIN)%string then ret tt
  else for_each (SIDES env) (on_book_update_side book_data).

(** The body of [poll], lines 200-224. *)
Definition poll : M unit :=
  poll_cycle env COIN
    (fun st => type_is st "resting" || type_is st "gap").
End Handlers.

End BasicAdding2.

(** ** basic_adding_3.py *)

Module BasicAdding3.

Definition GAMMA : R := 0.005.
Definition K : R := 0.001.
Definition R_ : R := 0.0005.
Definition VOL : R := 0.02.
Definition DT : R := 0.05.
Definition ALLOWABLE_DEVIATION : R := 0.5.
Definition MAX_POSITION : R := 100.
Definition COIN : string := "INJ".

(** [self.market_maker], line 77. *)
Definition market_maker : AvellanedaStoikov.AvellanedaStoikovMarketMaker :=
  AvellanedaStoikov.mkMarketMaker GAMMA K R_.

Section Handlers.
Variable env : Env.

(** Lines 153-177: a cancelled side always gets a new order; the
    notional test is commented out (lines 156-159) and the position the
    size is computed from is the local one, 0 when unknown. *)
Definition maybe_place (side : Side) (position quote_price : R)
    : M unit :=
  provide_state <- get_provide_state side ;;
  if type_is provide_state "cancelled"
  then let sz := MAX_POSITION + position * IZR (side_to_int side) in
       place_order env COIN side sz quote_price Resting
  else ret tt.

(** The body of [for side in SIDES], lines 120-177. *)
Definition on_book_update_side (mid_price spread : R) (side : Side)
    : M unit :=
  pos <- get_position ;;
  let position := match pos with Some p => p | None => 0 end in
  quotes <- lift (AvellanedaStoikov.calculate_quotes market_maker
                    mid_price spread position VOL DT) ;;
  let '(quote_price, quote_size) :=
    if Side_eqb side B then AvellanedaStoikov.bid quotes
    else AvellanedaStoikov.ask quotes in
  provide_state <- get_provide_state side ;;
  drift_check env COIN side provide_state quote_price
    (ALLOWABLE_DEVIATION * spread) ;;;
  maybe_place side position quote_price.

(** [on_book_update], lines 108-177. The mid price reads the best bid,
    then the best ask; the spread reads the best ask, then the best
    bid. *)
Definition on_book_update (book_data : L2BookData) : M unit :=
  if negb (coin book_data =? COIN)%string then ret tt
  else
    bids <- getitem (levels book_data) 0 ;;
    bid0 <- getitem bids 0 ;;
    asks <- getitem (levels book_data) 1 ;;
    ask0 <- getitem asks 0 ;;
    let mid_price := (level_px bid0 + level_px ask0) / 2 in
    let spread := level_px ask0 - level_px bid0 in
    for_each (SIDES env) (on_book_update_side mid_price spread).

(** The body of [poll], lines 194-220. *)
Definition poll : M unit :=
  poll_cycle env COIN (fun st => type_is st "resting").
End Handlers.

End BasicAdding3.

(** ** basic_adding_3.py: connecting *)

(** What [connect] and [reconnect] touch: the two SDK objects (named by the
    number of the outside call that built them), the subscriptions made on
    an [Info] object, the poller thread and the threads started, the outside
    calls made so far and the pauses taken. *)
Inductive Subscription : Type :=
| L2BookSub (c : string)
| UserEventsSub.

Record Link : Type := mkLink
  { info : option nat;
    exchange : option nat;
    subscriptions : list (nat * Subscription);
    poller : option nat;
    threads_started : nat;
    sdk_calls : nat;
    pauses : list Z }.

(** The network seen from [connect]: whether the n-th SDK call raises, and
    what [is_alive()] answers for a thread at a given moment. *)
Record Net : Type := mkNet
  { raises_at : nat -> bool;
    alive_at : nat -> nat -> bool }.

(** The exception of an SDK call, tagged with the number of the call. *)
Inductive link_exn : Type := SdkError (call : nat).

Definition L (T : Type) : Type := Link -> (T + link_exn) * Link.

Definition lret {T} (v : T) : L T := fun s => (inl v, s).

Definition lbind {T U} (m : L T) (f : T -> L U) : L U :=
  fun s =>
    match m s with
    | (inl v, s') => f v s'
    | (inr e, s') => (inr e, s')
    end.

(** One SDK call: it is counted, and it returns its number or raises. *)
Definition sdk_call (net : Net) : L nat :=
  fun s =>
    let n := sdk_calls s in
    let s' := {| info := info s; exchange := exchange s;
                 subscriptions := subscriptions s; poller := poller s;
                 threads_started := threads_started s;
                 sdk_calls := S n; pauses := pauses s |} in
    if raises_at net n then (inr (SdkError n), s') else (inl n, s').

Definition set_info (i : nat) : L unit :=
  fun s =>
    (inl tt,
     {| info := Some i; exchange := exchange s;
        subscriptions := subscriptions s; poller := poller s;
        threads_started := threads_started s;
        sdk_calls := sdk_calls s; pauses := pauses s |}).

Definition set_exchange (i : nat) : L unit :=
  fun s =>
    (inl tt,
     {| info := info s; exchange := Some i;
        subscriptions := subscriptions s; poller := poller s;
        threads_started := threads_started s;
        sdk_calls := sdk_calls s; pauses := pauses s |}).

(** [self.info.subscribe(subscription, callback)], on the [Info] object
    numbered [i]. *)
Definition subscribe (net : Net) (i : nat) (sub : Subscription) : L unit :=
  lbind (sdk_call net)
    (fun _ s =>
       (inl tt,
        {| info := info s; exchange := exchange s;
           subscriptions := subscriptions s ++ [(i, sub)];
           poller := poller s;
           threads_started := threads_started s;
           sdk_calls := sdk_calls s; pauses := pauses s |})).

(** [threading.Thread(target=self.poll)] and [start()]: the thread is named
    by the number of threads started before it. *)
Definition start_poller : L unit :=
  fun s =>
    (inl tt,
     {| info := info s; exchange := exchange s;
        subscriptions := subscriptions s;
        poller := Some (threads_started s);
        threads_started := S (threads_started s);
        sdk_calls := sdk_calls s; pauses := pauses s |}).

(** [time.sleep(seconds)]. *)
Definition sleep (seconds : Z) (s : Link) : Link :=
  {| info := info s; exchange := exchange s;
     subscriptions := subscriptions s; poller := poller s;
     threads_started := threads_started s;
     sdk_calls := sdk_calls s; pauses := pauses s ++ [seconds] |}.

(** [connect], lines 80-90: the [Info] object, the [Exchange] object, the
    two subscriptions on [self.info], and a poller thread unless one is
    alive. *)
Definition connect (net : Net) (COIN : string) : L unit :=
  lbind (sdk_call net) (fun i =>
  lbind (set_info i) (fun _ =>
  lbind (sdk_call net) (fun e =>
  lbind (set_exchange e) (fun _ =>
  lbind (subscribe net i (L2BookSub COIN)) (fun _ =>
  lbind (subscribe net i UserEventsSub) (fun _ =>
  fun s =>
    match poller s with
    | None => start_poller s
    | Some t =>
        if negb (alive_at net (sdk_calls s) t) then start_poller s
        else (inl tt, s)
    end)))))).

(** [reconnect], lines 92-106, from the value [attempt] of the loop
    counter. *)
Equations? reconnect_from (net : Net) (COIN : string) (reconnect_attempts : Z)
    (attempt : Z) (s : Link) : (unit + link_exn) * Link
    by wf (Z.to_nat (reconnect_attempts - attempt)) lt :=
  reconnect_from net COIN reconnect_attempts attempt s
    with Z_lt_dec attempt reconnect_attempts => {
    | right _ => (inl tt, s)
    | left _ with connect net COIN s => {
      | (inl _, s') => (inl tt, s')
      | (inr e, s') with Z_lt_dec (attempt + 1) reconnect_attempts => {
        | left _ =>
            reconnect_from net COIN reconnect_attempts (attempt + 1)
              (sleep 5 s')
        | right _ => (inr e, s') } } }.
Proof. lia. Qed.

(** [reconnect], lines 92-106. *)
Definition reconnect (net : Net) (COIN : string) (reconnect_attempts : Z)
    : L unit :=
  reconnect_from net COIN reconnect_attempts 0.

(** [__init__] of basic_adding_3 leaves everything unset (lines 68-78). *)
Definition unconnected : Link :=
  {| info := None; exchange := None; subscriptions := []; poller := None;
     threads_started := 0; sdk_calls := 0; pauses := [] |}.

(** ** Vocabulary of the statements *)

(** The requests a computation adds to the log when started in [w]. *)
Definition issued {T} (m : M T) (w : Run) : list Request :=
  drop (length (sent w)) (sent (snd (m w))).

Definition is_order (q : Request) : bool :=
  match q with
  | OrderReq _ _ _ _ => true
  | CancelReq _ _ => false
  end.

(** The object of a run with one side put in a given state, and with a given
    position. *)
Definition with_state (side : Side) (st : ProvideState) (w : Run) : Run :=
  snd (set_provide_state side st w).

Definition with_position (p : option R) (w : Run) : Run :=
  snd (set_position p w).

Definition with_registry (reg : gmap Z Z) (w : Run) : Run :=
  snd (set_registry reg w).

(** A book with one level on each side. *)
Definition top_of_book (c : string) (best_bid best_ask : R) : L2BookData :=
  {| coin := c;
     levels := [[mkLevel best_bid 1]; [mkLevel best_ask 1]] |}.

(** An environment that always gives the same answers: the clock shows
    [now], a cancel is answered by [cancel_reply], an order by [order_reply],
    the exchange lists [open_orders] and reports [positions]. The sides are
    visited ask first and prices are sent as they are. *)
Definition fixed_env (now : Z) (cancel_reply : CancelResponse)
    (order_reply : OrderResponse) (open_orders : list OpenOrder)
    (positions : list AssetPosition) : Env :=
  {| SIDES := [A; B];
     round_5g := fun x => x;
     timestamp_at := fun _ => now;
     cancel_at := fun _ => cancel_reply;
     order_at := fun _ => order_reply;
     open_orders_at := fun _ => open_orders;
     user_state_at := fun _ => positions |}.

(** An environment in which the exchange lists the orders 7 and 9 at the
    first query and only the order 7 afterwards; the clock shows 40 s. *)
Definition settling_env : Env :=
  {| SIDES := [A; B];
     round_5g := fun x => x;
     timestamp_at := fun _ => 40000%Z;
     cancel_at := fun _ => mkCancelResponse "ok";
     order_at := fun _ => mkOrderResponse "ok" [StatusResting 1];
     open_orders_at :=
       fun n => match n with
                | O => [mkOpenOrder "ARB" 7; mkOpenOrder "ARB" 9]
                | S _ => [mkOpenOrder "ARB" 7]
                end;
     user_state_at := fun _ => [] |}.

Definition accepted : CancelResponse := mkCancelResponse "ok".

(** A book whose best bid and best ask are the levels [bid0] and [ask0],
    and the price [levels[side_to_uint(side)][0]["px"]] read from it. *)
Definition book_with (c : string) (bid0 ask0 : L2Level)
    (bids asks : list L2Level) (more : list (list L2Level)) : L2BookData :=
  {| coin := c; levels := (bid0 :: bids) :: (ask0 :: asks) :: more |}.

Definition top_px (bid0 ask0 : L2Level) (side : Side) : R :=
  match side with
  | A => level_px ask0
  | B => level_px bid0
  end.

Definition resting_ack (oid : Z) : OrderResponse :=
  mkOrderResponse "ok" [StatusResting oid].


(** The quote prices as the specification words them: the half spread
    [gamma*s/2] is subtracted for the bid and added for the ask. *)
Definition spec_bid_price (gamma k r mid s q vol dt : R) : R :=
  mid - (gamma * s / 2) - q * (gamma * vol ^ 2 * dt) / 2 - k * exp (- r * dt).

Definition spec_ask_price (gamma k r mid s q vol dt : R) : R :=
  mid + (gamma * s / 2) + q * (gamma * vol ^ 2 * dt) / 2 + k * exp (- r * dt).

(** The open orders the exchange still lists once the cancels among [reqs]
    have taken effect. *)
Definition cancels (o : OpenOrder) (q : Request) : bool :=
  match q with
  | CancelReq c oid =>
    (c =? open_coin o)%string && (oid =? open_oid o)%Z
  | OrderReq _ _ _ _ => false
  end.

Definition cancelled_by (reqs : list Request) (o : OpenOrder) : bool :=
  existsb (cancels o) reqs.

Definition still_open (reqs : list Request) (open_orders : list OpenOrder)
    : list OpenOrder :=
  List.filter (fun o => negb (cancelled_by reqs o)) open_orders.

(** The open orders that [poll] cancels: those of the instrument whose
    order id is not among [ok_oids]. *)
Definition orphan (COIN : string) (ok_oids : gset Z) (o : OpenOrder) : bool :=
  (open_coin o =? COIN)%string && negb (bool_decide (open_oid o ∈ ok_oids)).

Definition cancel_of (o : OpenOrder) : Request :=
  CancelReq (open_coin o) (open_oid o).

(** The order ids [poll] expects to be open: those of the states of an
    expected type and the keys of the registry. *)
Definition state_oid (expected : ProvideState -> bool) (st : ProvideState)
    : gset Z :=
  if expected st
  then match getitem_oid st with
       | Returns oid => {[oid]}
       | Raises _ => ∅
       end
  else ∅.

Definition ok_oids (expected : ProvideState -> bool) (w : Run) : gset Z :=
  state_oid expected (provide_state (self w) B)
  ∪ (state_oid expected (provide_state (self w) A)
     ∪ dom (recently_cancelled_oid_to_time (self w))).

(** Every state of an expected type holds an order id. *)
Definition has_oid (expected : ProvideState -> bool) : Prop :=
  forall st, expected st = true -> exists oid, getitem_oid st = Returns oid.

(** The invariant "the position is unknown and the orders sent so far are
    [orders]", and what it means for a computation to keep an invariant. *)
Definition unknown_with_orders (orders : list Request) (w : Run) : Prop :=
  position (self w) = None /\ List.filter is_order (sent w) = orders.

Definition preserves {T} (I : Run -> Prop) (m : M T) : Prop :=
  forall w, I w -> I (snd (m w)).

(** The run after a sequence of handler calls, each started where the
    previous one stopped, however it ended. *)
Definition after (handlers : list (M unit)) (w : Run) : Run :=
  fold_left (fun v handler => snd (handler v)) handlers w.

(** What can happen to a [BasicAdder] of basic_adding_2: a book message, a
    user-events message, or one turn of the poller; each is run to its end
    before the next one starts. *)
Inductive Event : Type :=
| BookUpdate (book_data : L2BookData)
| UserEvents (user_events_data : UserEventsData)
| PollCycle.

Definition handle2 (env : Env) (e : Event) : M unit :=
  match e with
  | BookUpdate book_data => BasicAdding2.on_book_update env book_data
  | UserEvents user_events_data => on_user_events user_events_data
  | PollCycle => BasicAdding2.poll env
  end.

(** An exchange that accepts every cancel and acknowledges every order as
    resting. *)
Definition accepting (env : Env) : Prop :=
  forall n,
    cancel_status (cancel_at env n) = "ok"
    /\ order_status (order_at env n) = "ok"
    /\ exists oid more, statuses (order_at env n) = StatusResting oid :: more.

(** A book message that has a best bid and a best ask. *)
Definition two_sided (book_data : L2BookData) : Prop :=
  exists bid0 bids ask0 asks more,
    levels book_data = (bid0 :: bids) :: (ask0 :: asks) :: more.

(** The order requests a side may send: those of that side. *)
Definition order_of_side (env : Env) (side : Side) (q : Request) : Prop :=
  match q with
  | CancelReq _ _ => True
  | OrderReq _ is_buy sz px =>
      is_buy = Side_eqb side B
      /\ exists price, px = round_5g env price /\ 10 <= sz * price
  end.

(** Case analysis on the next test that blocks the run of a handler. *)
Ltac mcase :=
  match goal with
  | |- context [if ?c then _ else _] =>
      lazymatch c with
      | context [if _ then _ else _] => fail
      | context [match _ with _ => _ end] => fail
      | _ => destruct c eqn:?
      end
  | |- context [match ?x with _ => _ end] =>
      lazymatch x with
      | context [if _ then _ else _] => fail
      | context [match _ with _ => _ end] => fail
      | _ => destruct x eqn:?
      end
  end.

Ltac mrun := cbn; repeat (mcase; cbn).


(** * Properties *)

(** Running a handler is unfolding the monad; numerals and comparisons of
    reals stay as they are written. *)
Arguments bind {T U} m f w /.
Arguments ret {T} v w /.
Arguments continue {T} w /.
Arguments raise {T} e w /.
Arguments lift {T} !v w /.
Arguments getitem {T} l i w /.
Arguments get_position w /.
Arguments set_position p w /.
Arguments get_provide_state side w /.
Arguments set_provide_state side st w /.
Arguments get_registry w /.
Arguments set_registry reg w /.
Arguments registry_setitem oid t w /.
Arguments get_timestamp_ms env w /.
Arguments exchange_cancel env c oid w /.
Arguments exchange_order env c is_buy sz px w /.
Arguments info_open_orders env w /.
Arguments info_user_state env w /.
Arguments append_fills line w /.
Arguments set_self s w /.
Arguments called w reqs /.
Arguments AvellanedaStoikov.calculate_quotes : simpl never.
Arguments cancel_order : simpl never.
Arguments place_order : simpl never.
Arguments IZR _ : simpl never.
Arguments Rabs _ : simpl never.
Arguments Rgtb _ _ : simpl never.
Arguments Rltb _ _ : simpl never.
Arguments exp _ : simpl never.
Arguments lbind {T U} m f s /.
Arguments lret {T} v s /.
Arguments sdk_call net s /.
Arguments set_info i s /.
Arguments set_exchange i s /.
Arguments subscribe net i sub s /.
Arguments start_poller s /.

(** ** Comparisons *)

Lemma Rgtb_true (x y : R) : Rgtb x y = true <-> x > y.
Proof.
  unfold Rgtb. destruct (Rgt_dec x y); split; intros; try lra; discriminate.
Qed.

Lemma Rgtb_false (x y : R) : Rgtb x y = false <-> ~ x > y.
Proof.
  unfold Rgtb. destruct (Rgt_dec x y); split; intros; try tauto; discriminate.
Qed.

Lemma Rltb_true (x y : R) : Rltb x y = true <-> x < y.
Proof.
  unfold Rltb. destruct (Rlt_dec x y); split; intros; try lra; discriminate.
Qed.

Lemma Rltb_false (x y : R) : Rltb x y = false <-> ~ x < y.
Proof.
  unfold Rltb. destruct (Rlt_dec x y); split; intros; try tauto; discriminate.
Qed.

(** ** The quote formulas *)

Section Quotes.
Import AvellanedaStoikov.

Lemma arrival_term_nonzero (self : AvellanedaStoikovMarketMaker) (dt : R) :
  k self <> 0 -> k self * exp ((- r self) * dt) <> 0.
Proof.
  intros Hk Hl. apply Rmult_integral in Hl as [Hl | Hl]; [tauto|].
  pose proof (exp_pos ((- r self) * dt)). lra.
Qed.

End Quotes.

Section QuoteClaims.
Import AvellanedaStoikov.

(** What a successful call returns, in closed form. *)
Lemma calculate_quotes_returns (self : AvellanedaStoikovMarketMaker)
    (mid_price spread inventory vol dt : R) :
  k self <> 0 ->
  let delta := gamma self * vol ^ 2 * dt in
  let l := k self * exp ((- r self) * dt) in
  calculate_quotes self mid_price spread inventory vol dt
  = Returns
      {| bid := (mid_price - (- gamma self) * spread / 2
                 - inventory * delta / 2 - l,
                 (1 / 2) * (1 + inventory * delta / l));
         ask := (mid_price + (- gamma self) * spread / 2
                 + inventory * delta / 2 + l,
                 (1 / 2) * (1 - inventory * delta / l)) |}.
Proof.
  intros Hk delta l. unfold calculate_quotes.
  destruct (Req_dec_T _ 0) as [Hl | Hl]; [|reflexivity].
  by apply arrival_term_nonzero with (dt := dt) in Hk.
Qed.

(** C8, as worded, fails: with gamma = k = 1, r = 0, mid price 100, spread
    2 and no inventory the code quotes bid price 100 and ask price 100,
    where the worded formulas give 98 and 102. *)
Lemma calculate_quotes_spec_prices_differ :
  exists quotes,
    calculate_quotes (mkMarketMaker 1 1 0) 100 2 0 0 0 = Returns quotes
    /\ fst (bid quotes) <> spec_bid_price 1 1 0 100 2 0 0 0
    /\ fst (ask quotes) <> spec_ask_price 1 1 0 100 2 0 0 0.
Proof.
  eexists. split.
  - apply calculate_quotes_returns. simpl. lra.
  - unfold spec_bid_price, spec_ask_price. simpl.
    replace (-0 * 0) with 0 by lra. rewrite exp_0. split; lra.
Qed.

(** C8, amended: whenever the call returns (k is not zero), the bid price is
    mid + gamma*s/2 - q*(gamma*vol^2*dt)/2 - k*e^(-r*dt) and the ask price
    is mid - gamma*s/2 + q*(gamma*vol^2*dt)/2 + k*e^(-r*dt): the half-spread
    term enters with the opposite sign. *)
Theorem calculate_quotes_prices (self : AvellanedaStoikovMarketMaker)
    (mid s q vol dt : R) :
  k self <> 0 ->
  exists quotes,
    calculate_quotes self mid s q vol dt = Returns quotes
    /\ fst (bid quotes)
       = mid + gamma self * s / 2 - q * (gamma self * vol ^ 2 * dt) / 2
         - k self * exp (- r self * dt)
    /\ fst (ask quotes)
       = mid - gamma self * s / 2 + q * (gamma self * vol ^ 2 * dt) / 2
         + k self * exp (- r self * dt).
Proof.
  intros Hk. eexists. split.
  - by apply calculate_quotes_returns.
  - simpl. split; lra.
Qed.

Lemma calculate_quotes_prices_witness :
  exists quotes,
    calculate_quotes (mkMarketMaker 1 1 0) 100 2 0 0 0 = Returns quotes
    /\ fst (bid quotes)
       = 100 + 1 * 2 / 2 - 0 * (1 * 0 ^ 2 * 0) / 2 - 1 * exp (- 0 * 0)
    /\ fst (ask quotes)
       = 100 - 1 * 2 / 2 + 0 * (1 * 0 ^ 2 * 0) / 2 + 1 * exp (- 0 * 0).
Proof.
  apply (calculate_quotes_prices (mkMarketMaker 1 1 0) 100 2 0 0 0).
  simpl. lra.
Defined.



End QuoteClaims.

(** ** The request log *)

Lemma issued_app {T} (m : M T) (w : Run) (reqs : list Request) :
  sent (snd (m w)) = sent w ++ reqs -> issued m w = reqs.
Proof. intros H. unfold issued. rewrite H. apply drop_app_length. Qed.

Lemma issued_none {T} (m : M T) (w : Run) :
  sent (snd (m w)) = sent w -> issued m w = [].
Proof. intros H. apply issued_app. by rewrite app_nil_r. Qed.

Lemma filter_none {T} (f : T -> bool) (l : list T) :
  (forall x, In x l -> f x = false) -> List.filter f l = [].
Proof.
  induction l as [|x l IH]; intros H; [reflexivity|]. cbn.
  rewrite (H x) by (by left). apply IH. intros y Hy. apply H. by right.
Qed.

(** ** The reconciliation cycle *)

Lemma prune_lookup (current_time : Z) (reg : gmap Z Z) (oid timestamp : Z) :
  prune current_time reg !! oid = Some timestamp
  <-> reg !! oid = Some timestamp /\ (current_time - timestamp > 30000)%Z.
Proof. unfold prune. apply map_lookup_filter_Some. Qed.

Lemma add_state_oid_returns (expected : ProvideState -> bool)
    (ok : gset Z) (st : ProvideState) :
  has_oid expected ->
  add_state_oid expected ok st = Returns (state_oid expected st ∪ ok).
Proof.
  intros H. unfold add_state_oid, state_oid.
  destruct (expected st) eqn:He.
  - destruct (H st He) as [oid ->]. reflexivity.
  - by rewrite (left_id_L ∅ (∪)).
Qed.

Lemma has_oid_resting_or_gap :
  has_oid (fun st => type_is st "resting" || type_is st "gap").
Proof. intros [t|px oid| |px oid] H; cbn in *; try discriminate; eauto. Qed.

Lemma has_oid_resting : has_oid (fun st => type_is st "resting").
Proof. intros [t|px oid| |px oid] H; cbn in *; try discriminate; eauto. Qed.

(** The loop over the open orders sends one cancel per orphan, in order. *)
Lemma cancel_orphans_run (env : Env) (COIN : string) (ok : gset Z)
    (open_orders : list OpenOrder) (w : Run) :
  for_each open_orders
    (fun open_order =>
       if (open_coin open_order =? COIN)%string
          && negb (bool_decide (open_oid open_order ∈ ok))
       then bind (exchange_cancel env (open_coin open_order)
                    (open_oid open_order))
                 (fun _ => ret tt)
       else ret tt) w
  = (Normal tt,
     {| self := self w;
        calls := calls w + length (List.filter (orphan COIN ok) open_orders);
        sent :=
          sent w ++ map cancel_of (List.filter (orphan COIN ok) open_orders);
        fills_file := fills_file w |}).
Proof.
  revert w. induction open_orders as [|o rest IH]; intros w.
  - cbn. rewrite Nat.add_0_r, app_nil_r. by destruct w.
  - cbn [for_each List.filter].
    change ((open_coin o =? COIN)%string
            && negb (bool_decide (open_oid o ∈ ok))) with (orphan COIN ok o).
    destruct (orphan COIN ok o); cbn; rewrite IH; cbn; [|reflexivity].
    rewrite <- app_assoc, Nat.add_succ_r. reflexivity.
Qed.

(** One cycle in closed form: it always ends normally, cancels the orphans,
    prunes the registry with the time read after the cancels and refreshes
    the position from the first matching entry. *)
Lemma poll_cycle_run (env : Env) (COIN : string)
    (expected : ProvideState -> bool) (w : Run) :
  has_oid expected ->
  let open_orders := open_orders_at env (calls w) in
  let orphans := List.filter (orphan COIN (ok_oids expected w)) open_orders in
  let n := (S (calls w) + length orphans)%nat in
  poll_cycle env COIN expected w
  = (Normal tt,
     {| self :=
          {| position :=
               match find_position COIN (user_state_at env (S n)) with
               | Some p => Some (szi p)
               | None => position (self w)
               end;
             provide_state := provide_state (self w);
             recently_cancelled_oid_to_time :=
               prune (timestamp_at env n)
                 (recently_cancelled_oid_to_time (self w)) |};
        calls := S (S n);
        sent := sent w ++ map cancel_of orphans;
        fills_file := fills_file w |}).
Proof.
  intros Hex open_orders orphans n. unfold poll_cycle.
  cbn [bind info_open_orders get_registry get_provide_state called self].
  rewrite (add_state_oid_returns expected _ _ Hex). cbn [lift ret].
  rewrite (add_state_oid_returns expected _ _ Hex). cbn [lift ret].
  rewrite cancel_orphans_run. cbn.
  subst n orphans open_orders. unfold ok_oids. rewrite !app_nil_r.
  destruct (find_position _ _); reflexivity.
Qed.

Lemma poll_cycle_issued (env : Env) (COIN : string)
    (expected : ProvideState -> bool) (w : Run) :
  has_oid expected ->
  issued (poll_cycle env COIN expected) w
  = map cancel_of
      (List.filter (orphan COIN (ok_oids expected w))
         (open_orders_at env (calls w))).
Proof. intros Hex. apply issued_app. by rewrite poll_cycle_run. Qed.

Lemma cancelled_by_orphans (f : OpenOrder -> bool) (l : list OpenOrder)
    (o : OpenOrder) :
  In o l -> f o = true ->
  cancelled_by (map cancel_of (List.filter f l)) o = true.
Proof.
  intros Hin Hf. unfold cancelled_by. apply existsb_exists.
  exists (cancel_of o). split.
  - by apply in_map, filter_In.
  - cbn. by rewrite String.eqb_refl, Z.eqb_refl.
Qed.

(** A second cycle finds no orphan when the exchange has dropped the orders
    cancelled by the first and no listed order lost its registry entry. *)
Lemma poll_cycle_twice (env : Env) (COIN : string)
    (expected : ProvideState -> bool) (w : Run) :
  has_oid expected ->
  let w1 := snd (poll_cycle env COIN expected w) in
  open_orders_at env (calls w1)
  = still_open (issued (poll_cycle env COIN expected) w)
      (open_orders_at env (calls w)) ->
  (forall o, In o (open_orders_at env (calls w)) ->
     open_coin o = COIN ->
     open_oid o ∈ dom (recently_cancelled_oid_to_time (self w)) ->
     open_oid o ∈ dom (recently_cancelled_oid_to_time (self w1))) ->
  issued (poll_cycle env COIN expected) w1 = [].
Proof.
  intros Hex w1 Hopen Hkept.
  assert (Hst : provide_state (self w1) = provide_state (self w)).
  { subst w1. by rewrite poll_cycle_run. }
  rewrite (poll_cycle_issued env COIN expected w1 Hex), Hopen.
  rewrite (poll_cycle_issued env COIN expected w Hex).
  rewrite filter_none; [reflexivity|].
  intros o [Hin Hleft]%filter_In.
  apply negb_true_iff in Hleft.
  destruct (orphan COIN (ok_oids expected w) o) eqn:Horphan.
  { by rewrite cancelled_by_orphans in Hleft. }
  unfold orphan in *.
  destruct (open_coin o =? COIN)%string eqn:Hcoin; [|reflexivity].
  cbn in *. apply negb_false_iff, bool_decide_eq_true in Horphan.
  apply negb_false_iff, bool_decide_eq_true.
  apply String.eqb_eq in Hcoin.
  specialize (Hkept o Hin Hcoin).
  unfold ok_oids in *. rewrite Hst.
  apply elem_of_union in Horphan as [H|[H|H]%elem_of_union].
  - by apply elem_of_union_l.
  - by apply elem_of_union_r, elem_of_union_l.
  - by apply elem_of_union_r, elem_of_union_r, Hkept.
Qed.

(** C2 on the code: at time 31 s a cycle of either poller drops the entry of
    the order cancelled at 30 s (1 s old) and keeps the entry of the order
    cancelled at 0 s (31 s old): the comprehension keeps what C2 says
    is pruned and drops what it says is retained. *)
Theorem poll_drops_recent_keeps_old :
  let env := fixed_env 31000 accepted (resting_ack 1) [] [] in
  let w := with_registry {[ 7%Z := 30000%Z; 8%Z := 0%Z ]} init in
  recently_cancelled_oid_to_time (self (snd (BasicAdding2.poll env w)))
  = {[ 8%Z := 0%Z ]}
  /\ recently_cancelled_oid_to_time (self (snd (BasicAdding3.poll env w)))
     = {[ 8%Z := 0%Z ]}.
Proof.
  intros env w. unfold BasicAdding2.poll, BasicAdding3.poll.
  rewrite (poll_cycle_run _ _ _ _ has_oid_resting_or_gap).
  rewrite (poll_cycle_run _ _ _ _ has_oid_resting).
  cbn. split; reflexivity.
Qed.

(** Two cycles in a row: when the exchange's second listing is the first one
    without the orders the first cycle cancelled, and no listed order of the
    instrument lost its registry entry in the first cycle, both cycles end
    normally and the second cycle sends no request. *)
Theorem poll_twice_quiet (poll : Env -> M unit) (COIN : string) (env : Env)
    (w : Run) :
  (poll = BasicAdding2.poll /\ COIN = BasicAdding2.COIN)
  \/ (poll = BasicAdding3.poll /\ COIN = BasicAdding3.COIN) ->
  let w1 := snd (poll env w) in
  open_orders_at env (calls w1)
  = still_open (issued (poll env) w) (open_orders_at env (calls w)) ->
  (forall o, In o (open_orders_at env (calls w)) ->
     open_coin o = COIN ->
     open_oid o ∈ dom (recently_cancelled_oid_to_time (self w)) ->
     open_oid o ∈ dom (recently_cancelled_oid_to_time (self w1))) ->
  fst (poll env w) = Normal tt
  /\ fst (poll env w1) = Normal tt
  /\ issued (poll env) w1 = [].
Proof.
  intros [[-> ->] | [-> ->]] w1 Hopen Hkept.
  - split; [|split].
    + unfold BasicAdding2.poll.
      by rewrite poll_cycle_run by apply has_oid_resting_or_gap.
    + unfold BasicAdding2.poll.
      by rewrite poll_cycle_run by apply has_oid_resting_or_gap.
    + by apply poll_cycle_twice; [apply has_oid_resting_or_gap | |].
  - split; [|split].
    + unfold BasicAdding3.poll.
      by rewrite poll_cycle_run by apply has_oid_resting.
    + unfold BasicAdding3.poll.
      by rewrite poll_cycle_run by apply has_oid_resting.
    + by apply poll_cycle_twice; [apply has_oid_resting | |].
Qed.

Lemma poll_twice_quiet_witness :
  let w := with_registry {[ 7%Z := 0%Z ]} init in
  let w1 := snd (BasicAdding2.poll settling_env w) in
  issued (BasicAdding2.poll settling_env) w = [CancelReq "ARB" 9]
  /\ fst (BasicAdding2.poll settling_env w) = Normal tt
  /\ fst (BasicAdding2.poll settling_env w1) = Normal tt
  /\ issued (BasicAdding2.poll settling_env) w1 = [].
Proof.
  intros w w1. split.
  - unfold BasicAdding2.poll.
    rewrite poll_cycle_issued by apply has_oid_resting_or_gap. reflexivity.
  - apply (poll_twice_quiet BasicAdding2.poll BasicAdding2.COIN settling_env w).
    + left. split; reflexivity.
    + unfold BasicAdding2.poll.
      rewrite poll_cycle_issued by apply has_oid_resting_or_gap.
      rewrite poll_cycle_run by apply has_oid_resting_or_gap. reflexivity.
    + unfold BasicAdding2.poll.
      rewrite poll_cycle_run by apply has_oid_resting_or_gap.
      intros o [<- | [<- | []]] _ Hdom; cbn in *.
      * apply elem_of_dom. exists 0%Z. apply prune_lookup.
        split; [reflexivity | lia].
      * apply elem_of_dom in Hdom as [x Hx]. discriminate Hx.
Defined.

(** C6 on the code: order 7 was cancelled 1 s ago and the exchange still
    lists it. The first cycle of either poller tolerates it and sends
    nothing, so the second listing is the first one, but the cycle drops the
    1 s old registry entry (the comparison of the pruning step, as in C2);
    the second cycle then cancels order 7. Had the entry been 31 s old, it
    would have been kept and the second cycle would have sent nothing. *)
Theorem poll_twice_cancels_listed_order :
  (let env :=
     fixed_env 1000 accepted (resting_ack 1) [mkOpenOrder "ARB" 7] [] in
   let w := with_registry {[ 7%Z := 0%Z ]} init in
   let w1 := snd (BasicAdding2.poll env w) in
   issued (BasicAdding2.poll env) w = []
   /\ open_orders_at env (calls w1)
      = still_open (issued (BasicAdding2.poll env) w)
          (open_orders_at env (calls w))
   /\ recently_cancelled_oid_to_time (self w1) = ∅
   /\ issued (BasicAdding2.poll env) w1 = [CancelReq "ARB" 7])
  /\ (let env :=
        fixed_env 1000 accepted (resting_ack 1) [mkOpenOrder "INJ" 7] [] in
      let w := with_registry {[ 7%Z := 0%Z ]} init in
      let w1 := snd (BasicAdding3.poll env w) in
      issued (BasicAdding3.poll env) w = []
      /\ open_orders_at env (calls w1)
         = still_open (issued (BasicAdding3.poll env) w)
             (open_orders_at env (calls w))
      /\ recently_cancelled_oid_to_time (self w1) = ∅
      /\ issued (BasicAdding3.poll env) w1 = [CancelReq "INJ" 7])
  /\ (let env :=
        fixed_env 31000 accepted (resting_ack 1) [mkOpenOrder "ARB" 7] [] in
      let w := with_registry {[ 7%Z := 0%Z ]} init in
      let w1 := snd (BasicAdding2.poll env w) in
      issued (BasicAdding2.poll env) w = []
      /\ recently_cancelled_oid_to_time (self w1) = {[ 7%Z := 0%Z ]}
      /\ issued (BasicAdding2.poll env) w1 = []).
Proof.
  unfold BasicAdding2.poll, BasicAdding3.poll. cbn zeta.
  rewrite !(poll_cycle_issued _ _ _ _ has_oid_resting_or_gap).
  rewrite !(poll_cycle_issued _ _ _ _ has_oid_resting).
  rewrite !(poll_cycle_run _ _ _ _ has_oid_resting_or_gap).
  rewrite !(poll_cycle_run _ _ _ _ has_oid_resting).
  repeat split; reflexivity.
Qed.

(** ** The blocks of [on_book_update] *)

Lemma update_side_same (f : Side -> ProvideState) (side : Side)
    (st : ProvideState) :
  update_side f side st side = st.
Proof. unfold update_side. by destruct side. Qed.

Lemma update_side_other (f : Side -> ProvideState) (side other : Side)
    (st : ProvideState) :
  other <> side -> update_side f side st other = f other.
Proof. unfold update_side. by destruct side, other. Qed.

(** A cancel sends exactly one request and ends normally. *)
Lemma cancel_order_sent (env : Env) (c : string) (side : Side) (oid : Z)
    (w : Run) :
  fst (cancel_order env c side oid w) = Normal tt
  /\ sent (snd (cancel_order env c side oid w)) = sent w ++ [CancelReq c oid].
Proof.
  unfold cancel_order. mrun; rewrite ?app_nil_r; done.
Qed.

(** A placement sends exactly one request, whatever the reply. *)
Lemma place_order_sent (env : Env) (c : string) (side : Side) (sz price : R)
    (acked : R -> Z -> ProvideState) (w : Run) :
  sent (snd (place_order env c side sz price acked w))
  = sent w ++ [OrderReq c (Side_eqb side B) sz (round_5g env price)].
Proof.
  unfold place_order. mrun; rewrite ?app_nil_r; reflexivity.
Qed.

(** After a placement the side is not cancelled unless the position has
    been forgotten. *)
Lemma place_order_state (env : Env) (c : string) (side : Side) (sz price : R)
    (acked : R -> Z -> ProvideState) (w : Run) :
  (forall px oid, acked px oid <> Cancelled) ->
  let w' := snd (place_order env c side sz price acked w) in
  provide_state (self w') side = Cancelled -> position (self w') = None.
Proof.
  intros Hacked. unfold place_order. mrun; rewrite ?update_side_same; try done.
  intros H. by apply Hacked in H.
Qed.



(** ** basic_adding_2: one side of a book update *)

Section BookUpdate2.
Import BasicAdding2.
Variables (env : Env) (c : string) (bid0 ask0 : L2Level)
  (bids asks : list L2Level) (more : list (list L2Level)).


Lemma gap_condition_true (bb ba d : R) :
  gap_condition bb ba d = true <-> ba - bb > 2 * d.
Proof. apply Rgtb_true. Qed.

Lemma gap_condition_false (bb ba d : R) :
  gap_condition bb ba d = false <-> ~ ba - bb > 2 * d.
Proof. apply Rgtb_false. Qed.

(** C10: when the gap condition holds and the side is in flight, the
    lookup of "oid" has no result and the iteration stops with
    KeyError("oid") before anything is sent or changed; the gap
    cancellation raises it for an in-flight state only. *)
Theorem gap_branch_in_flight_raises (side : Side) (time : Z) (w : Run) :
  provide_state (self w) side = InFlightOrder time ->
  level_px ask0 - level_px bid0 > 2 * (top_px bid0 ask0 side * DEPTH) ->
  getitem_oid (InFlightOrder time) = Raises (KeyError "oid")
  /\ on_book_update_side env (book_with c bid0 ask0 bids asks more) side w
     = (Raise (KeyError "oid"), w)
  /\ (forall st,
        fst (gap_cancel env side st w) = Raise (KeyError "oid")
        <-> exists t, st = InFlightOrder t).
Proof.
  intros Hstate Hgap%gap_condition_true. split; [reflexivity|]. split.
  - unfold on_book_update_side, gap_cancel.
    destruct side; cbn in *; rewrite Hstate, Hgap; reflexivity.
  - intros st. unfold gap_cancel. split.
    + destruct st; unfold cancel_order; mrun; try discriminate; eauto.
    + intros [t ->]. reflexivity.
Qed.

(** C5, amended (basic_adding_2): for a cancelled side with a known
    position, when size times the price of the order under consideration
    (the gap price if the gap branch is entered, the ideal price
    otherwise) is below 10, nothing is sent and nothing changes: the side
    stays cancelled. *)
Theorem low_notional_places_nothing (side : Side) (pos : R) (w : Run) :
  let ideal_distance := top_px bid0 ask0 side * DEPTH in
  let ideal_price :=
    top_px bid0 ask0 side + ideal_distance * IZR (side_to_int side) in
  let sz := MAX_POSITION + pos * IZR (side_to_int side) in
  let price :=
    if gap_condition (level_px bid0) (level_px ask0) ideal_distance
    then gap_price side (level_px bid0) (level_px ask0) ideal_distance
    else ideal_price in
  provide_state (self w) side = Cancelled ->
  position (self w) = Some pos ->
  sz * price < 10 ->
  let w' :=
    snd (on_book_update_side env (book_with c bid0 ask0 bids asks more) side
           w) in
  issued (on_book_update_side env (book_with c bid0 ask0 bids asks more) side)
    w = []
  /\ provide_state (self w') side = Cancelled
  /\ w' = w.
Proof.
  intros d ideal sz price Hstate Hpos Hlow.
  assert (Hrun : on_book_update_side env
                   (book_with c bid0 ask0 bids asks more) side w
                 = (Continue, w)).
  { unfold on_book_update_side, gap_cancel, gap_place, maybe_place,
      drift_check.
    subst price sz ideal d. apply Rltb_true in Hlow.
    destruct side; cbn in *; rewrite Hstate;
      destruct (gap_condition _ _ _); cbn;
      rewrite ?Hstate; cbn; rewrite Hpos, Hlow; reflexivity. }
  intros w'. subst w'. rewrite Hrun. cbn.
  split; [|done]. apply issued_none. by rewrite Hrun.
Qed.

(** The order a cancelled side with a known position gets: priced at the gap
    price when the gap test succeeds, at the ideal price otherwise, and sent
    only if its notional is not below 10. Nothing else is sent, whatever the
    reply. *)
Lemma cancelled_side_order (side : Side) (pos : R) (w : Run) :
  let d := top_px bid0 ask0 side * DEPTH in
  let sz := MAX_POSITION + pos * IZR (side_to_int side) in
  let price :=
    if gap_condition (level_px bid0) (level_px ask0) d
    then gap_price side (level_px bid0) (level_px ask0) d
    else top_px bid0 ask0 side + d * IZR (side_to_int side) in
  provide_state (self w) side = Cancelled ->
  position (self w) = Some pos ->
  ~ sz * price < 10 ->
  issued (on_book_update_side env (book_with c bid0 ask0 bids asks more) side)
    w
  = [OrderReq COIN (Side_eqb side B) sz (round_5g env price)].
Proof.
  intros d sz price Hstate Hpos Hsz%Rltb_false. apply issued_app.
  unfold on_book_update_side, gap_cancel, gap_place, maybe_place,
    drift_check, place_order.
  subst d sz price.
  destruct side; cbn in *; rewrite Hstate;
    destruct (gap_condition _ _ _); cbn;
    rewrite ?Hstate; cbn; rewrite Hpos, Hsz; mrun;
    rewrite ?app_nil_r; reflexivity.
Qed.

(** C4, amended: the gap branch is entered exactly when best ask minus best
    bid exceeds twice the ideal distance of the side, and the order it
    places for a cancelled side is priced at best ask - 1.5 * distance on
    the bid side ("B") and at best bid + 1.5 * distance on the ask side
    ("A"); without the gap the order is priced at the ideal price. *)
Theorem gap_order_price (side : Side) (pos : R) (w : Run) :
  let d := top_px bid0 ask0 side * DEPTH in
  let sz := MAX_POSITION + pos * IZR (side_to_int side) in
  let gap_px :=
    match side with
    | A => level_px bid0 + d * 1.5
    | B => level_px ask0 - d * 1.5
    end in
  let ideal := top_px bid0 ask0 side + d * IZR (side_to_int side) in
  provide_state (self w) side = Cancelled ->
  position (self w) = Some pos ->
  (gap_condition (level_px bid0) (level_px ask0) d = true
   <-> level_px ask0 - level_px bid0 > 2 * d)
  /\ (level_px ask0 - level_px bid0 > 2 * d -> ~ sz * gap_px < 10 ->
      issued
        (on_book_update_side env (book_with c bid0 ask0 bids asks more) side)
        w
      = [OrderReq COIN (Side_eqb side B) sz (round_5g env gap_px)])
  /\ (~ level_px ask0 - level_px bid0 > 2 * d -> ~ sz * ideal < 10 ->
      issued
        (on_book_update_side env (book_with c bid0 ask0 bids asks more) side)
        w
      = [OrderReq COIN (Side_eqb side B) sz (round_5g env ideal)]).
Proof.
  intros d sz gap_px ideal Hstate Hpos.
  pose proof (cancelled_side_order side pos w) as Hsent. cbn zeta in Hsent.
  fold d sz in Hsent.
  split; [apply gap_condition_true|]. split.
  - intros Hgap%gap_condition_true Hsz. rewrite Hgap in Hsent.
    by rewrite Hsent; destruct side.
  - intros Hgap%gap_condition_false Hsz. rewrite Hgap in Hsent.
    by rewrite Hsent.
Qed.
End BookUpdate2.

Section Examples2.
Import BasicAdding2.

Lemma gap_branch_in_flight_raises_witness :
  let env := fixed_env 5000 accepted (resting_ack 1) [] [] in
  let w := with_state B (InFlightOrder 0) init in
  getitem_oid (InFlightOrder 0) = Raises (KeyError "oid")
  /\ on_book_update_side env (top_of_book "ARB" 1000 1004) B w
     = (Raise (KeyError "oid"), w)
  /\ (forall st,
        fst (gap_cancel env B st w) = Raise (KeyError "oid")
        <-> exists t, st = InFlightOrder t).
Proof.
  intros env w.
  apply (gap_branch_in_flight_raises env "ARB" (mkLevel 1000 1)
           (mkLevel 1004 1) [] [] [] B 0%Z w).
  - reflexivity.
  - unfold DEPTH. cbn. lra.
Defined.

Lemma low_notional_places_nothing_witness :
  let env := fixed_env 5000 accepted (resting_ack 1) [] [] in
  let w := with_position (Some (-20)) init in
  let w' := snd (on_book_update_side env (top_of_book "ARB" 1000 1001) A w) in
  issued (on_book_update_side env (top_of_book "ARB" 1000 1001) A) w = []
  /\ provide_state (self w') A = Cancelled
  /\ w' = w.
Proof.
  intros env w.
  apply (low_notional_places_nothing env "ARB" (mkLevel 1000 1)
           (mkLevel 1001 1) [] [] [] A (-20) w).
  - reflexivity.
  - reflexivity.
  - unfold gap_condition, gap_price, MAX_POSITION, DEPTH. cbn.
    destruct (Rgtb _ _); lra.
Defined.

(** C4, as worded, fails: with best bid 1000 and best ask 1004 (gap 4,
    ideal distance 1) the bid-side gap order is sent at 1002.5, which is
    best ask - 1.5, not at best bid + 1.5 = 1001.5. *)
Lemma bid_gap_order_below_best_ask :
  let env := fixed_env 5000 accepted (resting_ack 1) [] [] in
  let w := with_position (Some 0) init in
  1004 - 1000 > 2 * (1000 * DEPTH)
  /\ issued (on_book_update_side env (top_of_book "ARB" 1000 1004) B) w
     = [OrderReq "ARB" true 20 1002.5]
  /\ 1002.5 <> 1000 + 1.5 * (1000 * DEPTH).
Proof.
  intros env w.
  assert (Hgap : 1004 - 1000 > 2 * (1000 * DEPTH)) by (unfold DEPTH; lra).
  split; [exact Hgap|]. split; [|unfold DEPTH; lra].
  pose proof (cancelled_side_order env "ARB" (mkLevel 1000 1)
                (mkLevel 1004 1) [] [] [] B 0 w eq_refl eq_refl) as Hsent.
  cbn [top_px side_to_int level_px] in Hsent.
  apply gap_condition_true in Hgap. rewrite Hgap in Hsent.
  unfold top_of_book, book_with in *. rewrite Hsent.
  - do 2 f_equal; cbn; unfold MAX_POSITION, DEPTH; lra.
  - unfold gap_price, MAX_POSITION, DEPTH. lra.
Qed.

Lemma gap_order_price_witness :
  let env := fixed_env 5000 accepted (resting_ack 1) [] [] in
  let w := with_position (Some 0) init in
  issued (on_book_update_side env (top_of_book "ARB" 1000 1004) B) w
  = [OrderReq "ARB" true (MAX_POSITION + 0 * IZR (-1))
       (1004 - 1000 * DEPTH * 1.5)].
Proof.
  intros env w.
  destruct (gap_order_price env "ARB" (mkLevel 1000 1) (mkLevel 1004 1)
              [] [] [] B 0 w eq_refl eq_refl) as (_ & Hgap & _).
  apply Hgap; unfold MAX_POSITION, DEPTH; cbn; lra.
Defined.
End Examples2.

(** ** The drift check *)

Lemma drift_check_resting (env : Env) (c : string) (side : Side) (p : R)
    (oid : Z) (target threshold : R) (w : Run) :
  issued (drift_check env c side (Resting p oid) target threshold) w
  = if Rgtb (Rabs (target - p)) threshold then [CancelReq c oid] else [].
Proof.
  unfold drift_check, issued. cbn. destruct (Rgtb _ _); cbn.
  - destruct (cancel_order_sent env c side oid w) as [_ ->].
    apply drop_app_length.
  - apply drop_all.
Qed.

(** ** basic_adding_3: one side of a book update *)

Section BookUpdate3.
Import BasicAdding3.

Lemma market_maker_quotes (mid_price spread inventory : R) :
  exists bid_price bid_size ask_price ask_size,
    AvellanedaStoikov.calculate_quotes market_maker mid_price spread
      inventory VOL DT
    = Returns (AvellanedaStoikov.mkQuotes (bid_price, bid_size)
                 (ask_price, ask_size)).
Proof.
  do 4 eexists. apply calculate_quotes_returns.
  unfold market_maker, K. cbn. lra.
Qed.

(** A cancelled side gets an order whatever the position. *)
Lemma cancelled_side_gets_order (env : Env) (mid_price spread : R)
    (side : Side) (w : Run) :
  provide_state (self w) side = Cancelled ->
  exists px,
    issued (on_book_update_side env mid_price spread side) w
    = [OrderReq COIN (Side_eqb side B)
         (MAX_POSITION
          + match position (self w) with Some p => p | None => 0 end
            * IZR (side_to_int side))
         px].
Proof.
  intros Hstate.
  destruct (market_maker_quotes mid_price spread
              match position (self w) with Some p => p | None => 0 end)
    as (bp & bs & ap & asz & Hq).
  unfold on_book_update_side, maybe_place, drift_check, issued. cbn.
  rewrite Hq. cbn.
  destruct side; cbn; rewrite Hstate; cbn; rewrite Hstate; cbn;
    eexists; rewrite place_order_sent; apply drop_app_length.
Qed.

(** C1 on basic_adding_3: after a user event on a fresh object the position
    is unknown, and the next book update still sends an order of size 100
    on the side it treats, whatever the exchange answers. *)
Theorem fill_then_book_update_places_order (env : Env)
    (user_events_data : UserEventsData) (mid_price spread : R)
    (side : Side) :
  let w := snd (on_user_events user_events_data init) in
  position (self w) = None
  /\ exists px,
       issued (on_book_update_side env mid_price spread side) w
       = [OrderReq "INJ" (Side_eqb side B) 100 px].
Proof.
  intros w. assert (Hpos : position (self w) = None).
  { subst w. unfold on_user_events. by destruct (fills _). }
  split; [exact Hpos|].
  destruct (cancelled_side_gets_order env mid_price spread side w)
    as [px Hpx].
  { subst w. unfold on_user_events. by destruct (fills _). }
  exists px. rewrite Hpx, Hpos. do 2 f_equal. unfold MAX_POSITION. lra.
Qed.

(** C5, as worded, fails on basic_adding_3: with position -100 the ask
    side is cancelled, the size is 0 and so is the notional, and the order
    is sent all the same and acknowledged as resting. *)
Lemma order_placed_below_minimum_notional :
  let env := fixed_env 5000 accepted (resting_ack 1) [] [] in
  let w := with_position (Some (-100)) init in
  provide_state (self w) A = Cancelled
  /\ exists sz px,
       issued (on_book_update_side env 10.5 1 A) w
       = [OrderReq "INJ" false sz px]
       /\ sz * px < 10
       /\ provide_state
            (self (snd (on_book_update_side env 10.5 1 A w))) A
          = Resting px 1.
Proof.
  intros env w. split; [reflexivity|].
  destruct (market_maker_quotes 10.5 1 (-100)) as (bp & bs & ap & asz & Hq).
  exists (MAX_POSITION + -100 * IZR 1), ap.
  unfold on_book_update_side, maybe_place, drift_check, place_order, issued.
  cbn. rewrite Hq. cbn. split; [reflexivity|].
  split; [unfold MAX_POSITION; lra | reflexivity].
Qed.
(** The whole handler of basic_adding_3 on the same input: after a fill on a
    fresh object, a book update with best bid 10 and best ask 11 sends an
    ask order and a bid order of size 100 each. *)
Example fill_then_book_update_both_sides :
  let env := fixed_env 5000 accepted (resting_ack 1) [] [] in
  let w := snd (on_user_events (mkUserEvents (Some "[]")) init) in
  position (self w) = None
  /\ exists ask_px bid_px,
       issued (BasicAdding3.on_book_update env (top_of_book "INJ" 10 11)) w
       = [OrderReq "INJ" false 100 ask_px; OrderReq "INJ" true 100 bid_px].
Proof.
  intros env w. split; [reflexivity|].
  destruct (market_maker_quotes ((10 + 11) / 2) (11 - 10) 0)
    as (bp & bs & ap & asz & Hq).
  exists ap, bp.
  unfold BasicAdding3.on_book_update, BasicAdding3.on_book_update_side,
    BasicAdding3.maybe_place, drift_check, place_order, issued.
  cbn. rewrite Hq. cbn. rewrite Hq. cbn.
  do 2 f_equal; [|f_equal]; f_equal; unfold BasicAdding3.MAX_POSITION; lra.
Qed.
End BookUpdate3.


(** ** The drift check inside the handlers *)

Section Drift2.
Import BasicAdding2.
Variables (env : Env) (c : string) (bid0 ask0 : L2Level)
  (bids asks : list L2Level) (more : list (list L2Level)) (side : Side)
  (p : R) (oid : Z) (w : Run).
Hypothesis Hresting : provide_state (self w) side = Resting p oid.


End Drift2.




(** ** basic_adding_2: no placement while the position is unknown *)

Section Unknown.
Variable orders : list Request.

Lemma preserves_bind {T U} (m : M T) (f : T -> M U) :
  preserves (unknown_with_orders orders) m ->
  (forall v, preserves (unknown_with_orders orders) (f v)) ->
  preserves (unknown_with_orders orders) (bind m f).
Proof.
  intros Hm Hf w Hw. specialize (Hm w Hw). cbn.
  destruct (m w) as [[v| |e] w']; cbn in *; [by apply Hf|done|done].
Qed.

Lemma preserves_pure {T} (m : M T) :
  (forall w, snd (m w) = w) -> preserves (unknown_with_orders orders) m.
Proof. intros H w Hw. by rewrite H. Qed.

Lemma preserves_lift {T} (v : result T) :
  preserves (unknown_with_orders orders) (lift v).
Proof. apply preserves_pure. by destruct v. Qed.

Lemma preserves_getitem {T} (l : list T) (i : nat) :
  preserves (unknown_with_orders orders) (getitem l i).
Proof. apply preserves_pure. intros w. cbn. by destruct (l !! i). Qed.

Lemma preserves_get_position {U} (f : option R -> M U) :
  preserves (unknown_with_orders orders) (f None) ->
  preserves (unknown_with_orders orders) (bind get_position f).
Proof.
  intros Hf w Hw. cbn. destruct Hw as [Hpos ?]. rewrite Hpos. by apply Hf.
Qed.

Lemma preserves_set_provide_state (side : Side) (st : ProvideState) :
  preserves (unknown_with_orders orders) (set_provide_state side st).
Proof. by intros w [? ?]. Qed.

Lemma preserves_registry_setitem (oid t : Z) :
  preserves (unknown_with_orders orders) (registry_setitem oid t).
Proof. by intros w [? ?]. Qed.

Lemma preserves_get_timestamp_ms (env : Env) :
  preserves (unknown_with_orders orders) (get_timestamp_ms env).
Proof. intros w [? ?]. split; cbn; [done|]. by rewrite app_nil_r. Qed.

Lemma preserves_exchange_cancel (env : Env) (c : string) (oid : Z) :
  preserves (unknown_with_orders orders) (exchange_cancel env c oid).
Proof.
  intros w [? ?]. split; cbn; [done|].
  rewrite List.filter_app. cbn. by rewrite app_nil_r.
Qed.

Lemma preserves_if {T} (b : bool) (m1 m2 : M T) :
  preserves (unknown_with_orders orders) m1 ->
  preserves (unknown_with_orders orders) m2 ->
  preserves (unknown_with_orders orders) (if b then m1 else m2).
Proof. by destruct b. Qed.

Lemma preserves_cancel_order (env : Env) (c : string) (side : Side)
    (oid : Z) :
  preserves (unknown_with_orders orders) (cancel_order env c side oid).
Proof.
  unfold cancel_order.
  apply preserves_bind; [apply preserves_exchange_cancel|]. intros response.
  apply preserves_if; [|by apply preserves_pure].
  apply preserves_bind; [apply preserves_get_timestamp_ms|]. intros t.
  apply preserves_bind; [apply preserves_registry_setitem|]. intros _.
  apply preserves_set_provide_state.
Qed.

Lemma preserves_drift_check (env : Env) (c : string) (side : Side)
    (st : ProvideState) (target threshold : R) :
  preserves (unknown_with_orders orders)
    (drift_check env c side st target threshold).
Proof.
  unfold drift_check. repeat apply preserves_if.
  - apply preserves_bind; [apply preserves_lift|]. intros px.
    apply preserves_if; [|by apply preserves_pure].
    apply preserves_bind; [apply preserves_lift|]. intros oid.
    apply preserves_cancel_order.
  - apply preserves_bind; [apply preserves_get_timestamp_ms|]. intros now.
    apply preserves_bind; [apply preserves_lift|]. intros time.
    apply preserves_if; [apply preserves_set_provide_state|].
    by apply preserves_pure.
  - by apply preserves_pure.
Qed.

Lemma preserves_side (env : Env) (book_data : L2BookData) (side : Side) :
  preserves (unknown_with_orders orders)
    (BasicAdding2.on_book_update_side env book_data side).
Proof.
  unfold BasicAdding2.on_book_update_side.
  do 2 (apply preserves_bind; [apply preserves_getitem|]; intros ?).
  apply preserves_bind; [by apply preserves_pure|]. intros st.
  do 4 (apply preserves_bind; [apply preserves_getitem|]; intros ?).
  apply preserves_bind; [|intros _; apply preserves_bind].
  - apply preserves_if; [|by apply preserves_pure].
    apply preserves_bind; [|intros _].
    + unfold BasicAdding2.gap_cancel.
      apply preserves_if; [|by apply preserves_pure].
      apply preserves_bind; [apply preserves_lift|]. intros oid.
      apply preserves_cancel_order.
    + unfold BasicAdding2.gap_place.
      apply preserves_bind; [by apply preserves_pure|]. intros current.
      apply preserves_if; [|by apply preserves_pure].
      apply preserves_get_position. by apply preserves_pure.
  - apply preserves_drift_check.
  - intros _. unfold BasicAdding2.maybe_place.
    apply preserves_bind; [by apply preserves_pure|]. intros current.
    apply preserves_if; [|by apply preserves_pure].
    apply preserves_get_position. by apply preserves_pure.
Qed.

Lemma preserves_for_each {T} (body : T -> M unit) (l : list T) :
  (forall x, preserves (unknown_with_orders orders) (body x)) ->
  preserves (unknown_with_orders orders) (for_each l body).
Proof.
  intros Hbody. induction l as [|x rest IH]; intros w Hw; [done|].
  cbn. specialize (Hbody x w Hw).
  destruct (body x w) as [[v| |e] w']; cbn in *; [by apply IH|by apply IH|done].
Qed.

Lemma preserves_on_book_update (env : Env) (book_data : L2BookData) :
  preserves (unknown_with_orders orders)
    (BasicAdding2.on_book_update env book_data).
Proof.
  unfold BasicAdding2.on_book_update.
  apply preserves_if; [by apply preserves_pure|].
  apply preserves_for_each. intros side. apply preserves_side.
Qed.
End Unknown.

(** In basic_adding_2, a book update that finds the position unknown leaves it
    unknown and sends no order, on any side and whatever the replies. *)
Theorem no_order_while_position_unknown (env : Env) (book_data : L2BookData)
    (w : Run) :
  position (self w) = None ->
  let w' := snd (BasicAdding2.on_book_update env book_data w) in
  position (self w') = None
  /\ List.filter is_order (sent w') = List.filter is_order (sent w).
Proof.
  intros Hpos.
  by apply (preserves_on_book_update (List.filter is_order (sent w))).
Qed.

(** The same across a fill and any number of book updates that follow it:
    what C1 asks for holds in basic_adding_2. *)
Theorem no_order_after_fill (env : Env) (user_events_data : UserEventsData)
    (books : list L2BookData) (w : Run) :
  let w1 := snd (on_user_events user_events_data w) in
  let w2 := after (map (BasicAdding2.on_book_update env) books) w1 in
  position (self w1) = None
  /\ position (self w2) = None
  /\ List.filter is_order (sent w2) = List.filter is_order (sent w).
Proof.
  intros w1 w2.
  assert (H1 : unknown_with_orders (List.filter is_order (sent w)) w1).
  { subst w1. unfold on_user_events. by destruct (fills _). }
  split; [apply H1|]. subst w2. revert H1. generalize w1.
  induction books as [|book rest IH]; intros v Hv; [done|].
  cbn. apply IH. by apply preserves_on_book_update.
Qed.

(** ** basic_adding_3: connecting and reconnecting *)

(** What one call of [connect] does to the object: it takes no pause and
    starts at most one thread; when it raises, the poller is the one it
    found and no thread was started; when it returns, both objects are set,
    the two subscriptions were made last, on the new [Info] object, and
    there is a poller. *)
Lemma connect_effect (net : Net) (COIN : string) (s : Link) :
  let s' := snd (connect net COIN s) in
  pauses s' = pauses s
  /\ (sdk_calls s < sdk_calls s')%nat
  /\ match fst (connect net COIN s) with
     | inr _ =>
         threads_started s' = threads_started s /\ poller s' = poller s
     | inl _ =>
         (threads_started s' = threads_started s
          \/ threads_started s' = S (threads_started s))
         /\ (exists i e before,
               info s' = Some i /\ exchange s' = Some e
               /\ subscriptions s'
                  = before ++ [(i, L2BookSub COIN); (i, UserEventsSub)])
         /\ exists t, poller s' = Some t
     end.
Proof.
  unfold connect. cbn.
  repeat (match goal with
          | |- context [if ?c then _ else _] => destruct c eqn:?
          | |- context [match poller ?x with _ => _ end] =>
              destruct (poller x) eqn:?
          end; cbn);
    try (cbn in *; discriminate);
    repeat split; try lia; eauto;
    try (do 3 eexists; repeat split; rewrite <- app_assoc; reflexivity).
Qed.

Lemma sleep_fields (seconds : Z) (s : Link) :
  pauses (sleep seconds s) = pauses s ++ [seconds]
  /\ threads_started (sleep seconds s) = threads_started s
  /\ poller (sleep seconds s) = poller s
  /\ sdk_calls (sleep seconds s) = sdk_calls s.
Proof. done. Qed.

(** The loop from [attempt < reconnect_attempts] on. *)
Lemma reconnect_from_outcome (net : Net) (COIN : string)
    (reconnect_attempts attempt : Z) (s : Link) :
  (attempt < reconnect_attempts)%Z ->
  let left_ := Z.to_nat (reconnect_attempts - attempt) in
  let out := reconnect_from net COIN reconnect_attempts attempt s in
  exists j,
    pauses (snd out) = pauses s ++ repeat 5%Z j
    /\ (j < left_)%nat
    /\ (sdk_calls s + j < sdk_calls (snd out))%nat
    /\ match fst out with
       | inr _ =>
           S j = left_
           /\ threads_started (snd out) = threads_started s
           /\ poller (snd out) = poller s
       | inl _ =>
           (threads_started (snd out) = threads_started s
            \/ threads_started (snd out) = S (threads_started s))
           /\ (exists i e before,
                 info (snd out) = Some i /\ exchange (snd out) = Some e
                 /\ subscriptions (snd out)
                    = before ++ [(i, L2BookSub COIN); (i, UserEventsSub)])
           /\ exists t, poller (snd out) = Some t
       end.
Proof.
  funelim (reconnect_from net COIN reconnect_attempts attempt s);
    intros Hlt; try lia.
  - (* the attempt succeeds *)
    pose proof (connect_effect net COIN s) as Hc.
    cbn zeta in Hc. rewrite Heq in Hc. cbn in *.
    destruct Hc as (Hp & Hcalls & Hk).
    exists 0%nat. rewrite app_nil_r. repeat split; try lia; tauto.
  - (* the attempt fails and another one follows *)
    pose proof (connect_effect net COIN s) as Hc.
    cbn zeta in Hc. rewrite Heq0 in Hc. cbn in Hc.
    destruct Hc as (Hp & Hcalls & Ht & Hpo).
    destruct H as (j & Hj & Hjn & Hcj & Hout); [lia|].
    cbn in Hj, Hcj.
    exists (S j). rewrite Hj, Hp, <- app_assoc.
    split; [reflexivity|]. split; [lia|]. split; [lia|].
    destruct (fst (reconnect_from _ _ _ _ _)).
    + destruct Hout as (Hs & Hsub & Hq). cbn in Hs. rewrite Ht in Hs. done.
    + destruct Hout as (Hl & Hs & Hq). cbn in Hs, Hq.
      repeat split; try lia; congruence.
  - (* the last attempt fails *)
    pose proof (connect_effect net COIN s) as Hc.
    cbn zeta in Hc. rewrite Heq0 in Hc. cbn in *.
    destruct Hc as (Hp & Hcalls & Ht & Hpo).
    exists 0%nat. rewrite app_nil_r. repeat split; try lia; done.
Qed.

(** With no attempt allowed (a count of zero or less), [reconnect] returns
    at once: nothing is connected and nothing is raised. *)
Theorem reconnect_without_attempts (net : Net) (COIN : string)
    (reconnect_attempts : Z) (s : Link) :
  (reconnect_attempts <= 0)%Z ->
  reconnect net COIN reconnect_attempts s = (inl tt, s).
Proof.
  intros Hn. unfold reconnect. simp reconnect_from.
  destruct (Z_lt_dec 0 reconnect_attempts); [lia|reflexivity].
Qed.

Lemma reconnect_without_attempts_witness :
  reconnect (mkNet (fun _ => false) (fun _ _ => true)) "INJ" 0 unconnected
  = (inl tt, unconnected).
Proof.
  apply (reconnect_without_attempts
           (mkNet (fun _ => false) (fun _ _ => true)) "INJ" 0 unconnected).
  lia.
Defined.

(** With at least one attempt allowed, [reconnect] pauses 5 s between two
    attempts and nowhere else: j pauses for j + 1 attempts, with j below the
    allowed count, and every attempt makes at least one SDK call. It raises
    only after the allowed number of attempts; when it returns, both SDK
    objects are set, the book and user-events subscriptions were the last
    ones made, on the current [Info] object, and there is a poller. *)
Theorem reconnect_bounded_retry (net : Net) (COIN : string)
    (reconnect_attempts : Z) (s : Link) :
  (0 < reconnect_attempts)%Z ->
  let out := reconnect net COIN reconnect_attempts s in
  exists j,
    pauses (snd out) = pauses s ++ repeat 5%Z j
    /\ (Z.of_nat j < reconnect_attempts)%Z
    /\ (sdk_calls s + j < sdk_calls (snd out))%nat
    /\ match fst out with
       | inr _ => (Z.of_nat j + 1 = reconnect_attempts)%Z
       | inl _ =>
           (exists i e before,
              info (snd out) = Some i /\ exchange (snd out) = Some e
              /\ subscriptions (snd out)
                 = before ++ [(i, L2BookSub COIN); (i, UserEventsSub)])
           /\ exists t, poller (snd out) = Some t
       end.
Proof.
  intros Hn out.
  destruct (reconnect_from_outcome net COIN reconnect_attempts 0 s Hn)
    as (j & Hp & Hj & Hc & Hout).
  exists j. fold (reconnect net COIN reconnect_attempts s) in *.
  fold out in Hp, Hc, Hout.
  repeat split; try done; try lia.
  destruct (fst out); [tauto | lia].
Qed.

Lemma reconnect_bounded_retry_witness :
  let net := mkNet (fun n => (n <? 2)%nat) (fun _ _ => true) in
  let out := reconnect net "INJ" 5 unconnected in
  exists j,
    pauses (snd out) = pauses unconnected ++ repeat 5%Z j
    /\ (Z.of_nat j < 5)%Z
    /\ (sdk_calls unconnected + j < sdk_calls (snd out))%nat
    /\ match fst out with
       | inr _ => (Z.of_nat j + 1 = 5)%Z
       | inl _ =>
           (exists i e before,
              info (snd out) = Some i /\ exchange (snd out) = Some e
              /\ subscriptions (snd out)
                 = before ++ [(i, L2BookSub "INJ"); (i, UserEventsSub)])
           /\ exists t, poller (snd out) = Some t
       end.
Proof.
  intros net.
  apply (reconnect_bounded_retry net "INJ" 5 unconnected). lia.
Defined.

Lemma connect_alive_poller (net : Net) (COIN : string) (s : Link) (t : nat) :
  poller s = Some t ->
  (forall moment, alive_at net moment t = true) ->
  threads_started (snd (connect net COIN s)) = threads_started s
  /\ poller (snd (connect net COIN s)) = Some t.
Proof.
  intros Hp Halive. unfold connect. cbn.
  repeat (match goal with
          | |- context [if ?c then _ else _] => destruct c eqn:?
          end; cbn; rewrite ?Hp, ?Halive; cbn); done.
Qed.

Lemma reconnect_from_threads (net : Net) (COIN : string)
    (reconnect_attempts attempt : Z) (s : Link) :
  let out := reconnect_from net COIN reconnect_attempts attempt s in
  (threads_started s <= threads_started (snd out) <= S (threads_started s))%nat
  /\ (forall e, fst out = inr e ->
        threads_started (snd out) = threads_started s)
  /\ (forall t, poller s = Some t ->
        (forall moment, alive_at net moment t = true) ->
        threads_started (snd out) = threads_started s
        /\ poller (snd out) = Some t).
Proof.
  funelim (reconnect_from net COIN reconnect_attempts attempt s); cbn zeta.
  - cbn. repeat split; try lia; done.
  - pose proof (connect_effect net COIN s) as Hc.
    cbn zeta in Hc. rewrite Heq in Hc. cbn in *.
    destruct Hc as (_ & _ & Hs & _). split; [lia|]. split; [done|].
    intros t Hp Halive.
    pose proof (connect_alive_poller net COIN s t Hp Halive) as Ha.
    by rewrite Heq in Ha.
  - pose proof (connect_effect net COIN s) as Hc.
    cbn zeta in Hc. rewrite Heq0 in Hc. cbn in Hc.
    destruct Hc as (_ & _ & Ht & Hpo).
    cbn zeta in H. destruct H as (Hb & Hraise & Hkeep). cbn in Hb.
    split; [lia|]. split.
    + intros e0 He. rewrite (Hraise e0 He). cbn. lia.
    + intros t Hp Halive. cbn in Hkeep.
      destruct (Hkeep t) as [Hs Hq]; [congruence|done|].
      split; [lia|done].
  - pose proof (connect_effect net COIN s) as Hc.
    cbn zeta in Hc. rewrite Heq0 in Hc. cbn in *.
    destruct Hc as (_ & _ & Ht & Hpo).
    split; [lia|]. split; [done|]. intros t Hp _. split; congruence.
Qed.

(** [reconnect] starts at most one poller thread; none when it raises, and
    none when the poller it finds is reported alive, which it then keeps. *)
Theorem reconnect_starts_at_most_one_thread (net : Net) (COIN : string)
    (reconnect_attempts : Z) (s : Link) :
  let out := reconnect net COIN reconnect_attempts s in
  (threads_started s <= threads_started (snd out) <= S (threads_started s))%nat
  /\ (forall e, fst out = inr e ->
        threads_started (snd out) = threads_started s)
  /\ (forall t, poller s = Some t ->
        (forall moment, alive_at net moment t = true) ->
        threads_started (snd out) = threads_started s
        /\ poller (snd out) = Some t).
Proof. apply reconnect_from_threads. Qed.

(** ** Invariants of one side's iteration *)

Lemma preserves_seq {T U} (I : Run -> Prop) (m : M T) (f : T -> M U) :
  preserves I m -> (forall v, preserves I (f v)) -> preserves I (bind m f).
Proof.
  intros Hm Hf w Hw. specialize (Hm w Hw). cbn.
  destruct (m w) as [[v| |e] w']; cbn in *; [by apply Hf|done|done].
Qed.

Lemma preserves_same {T} (I : Run -> Prop) (m : M T) :
  (forall w, snd (m w) = w) -> preserves I m.
Proof. intros H w Hw. by rewrite H. Qed.

Lemma preserves_test {T} (I : Run -> Prop) (b : bool) (m1 m2 : M T) :
  (b = true -> preserves I m1) -> (b = false -> preserves I m2) ->
  preserves I (if b then m1 else m2).
Proof. destruct b; auto. Qed.

Lemma preserves_loop {T} (I : Run -> Prop) (body : T -> M unit)
    (l : list T) :
  (forall x, preserves I (body x)) -> preserves I (for_each l body).
Proof.
  intros Hbody. induction l as [|x rest IH]; intros w Hw; [done|].
  cbn. specialize (Hbody x w Hw).
  destruct (body x w) as [[v| |e] w']; cbn in *;
    [by apply IH|by apply IH|done].
Qed.

Section SideInvariant.
Variables (env : Env) (side : Side) (I : Run -> Prop)
  (allowed : R -> R -> Prop).
Hypothesis I_clock : preserves I (get_timestamp_ms env).
Hypothesis I_cancel : forall c oid, preserves I (exchange_cancel env c oid).
Hypothesis I_order :
  forall c sz price,
    allowed sz price ->
    preserves I
      (exchange_order env c (Side_eqb side B) sz (round_5g env price)).
Hypothesis I_state : forall st, preserves I (set_provide_state side st).
Hypothesis I_registry : forall oid t, preserves I (registry_setitem oid t).
Hypothesis I_forget : preserves I (set_position None).

Lemma cancel_order_preserves (c : string) (oid : Z) :
  preserves I (cancel_order env c side oid).
Proof.
  unfold cancel_order.
  apply preserves_seq; [apply I_cancel|]. intros response.
  apply preserves_test; intros _; [|by apply preserves_same].
  apply preserves_seq; [apply I_clock|]. intros t.
  apply preserves_seq; [apply I_registry|]. intros _. apply I_state.
Qed.

Lemma place_order_preserves (c : string) (sz price : R)
    (acked : R -> Z -> ProvideState) :
  allowed sz price -> preserves I (place_order env c side sz price acked).
Proof.
  intros Hok. unfold place_order.
  apply preserves_seq; [apply I_clock|]. intros t.
  apply preserves_seq; [apply I_state|]. intros _.
  apply preserves_seq; [by apply I_order|]. intros response.
  apply preserves_test; intros _; [|by apply preserves_same].
  apply preserves_seq.
  { apply preserves_same. intros w. cbn. by destruct (_ !! _). }
  intros [oid|key]; [apply I_state|].
  apply preserves_seq; [apply I_state|]. intros _. apply I_forget.
Qed.

Lemma drift_check_preserves (c : string) (st : ProvideState)
    (target threshold : R) :
  preserves I (drift_check env c side st target threshold).
Proof.
  unfold drift_check. repeat (apply preserves_test; intros _).
  - apply preserves_seq; [apply preserves_same; by destruct (getitem_px st)|].
    intros px. apply preserves_test; intros _; [|by apply preserves_same].
    apply preserves_seq; [apply preserves_same; by destruct (getitem_oid st)|].
    intros oid. apply cancel_order_preserves.
  - apply preserves_seq; [apply I_clock|]. intros now.
    apply preserves_seq;
      [apply preserves_same; by destruct (getitem_time st)|].
    intros time. apply preserves_test; intros _; [apply I_state|].
    by apply preserves_same.
  - by apply preserves_same.
Qed.

(** In basic_adding_2 every order passes the notional test first. *)
Lemma side2_preserves (book_data : L2BookData) :
  (forall sz price, ~ sz * price < 10 -> allowed sz price) ->
  preserves I (BasicAdding2.on_book_update_side env book_data side).
Proof.
  intros Hallowed. unfold BasicAdding2.on_book_update_side.
  assert (Hget : forall T (l : list T) i, preserves I (getitem l i)).
  { intros. apply preserves_same. intros w. cbn. by destruct (_ !! _). }
  do 2 (apply preserves_seq; [apply Hget|]; intros ?).
  apply preserves_seq; [by apply preserves_same|]. intros st.
  do 4 (apply preserves_seq; [apply Hget|]; intros ?).
  apply preserves_seq; [|intros _; apply preserves_seq].
  - apply preserves_test; intros _; [|by apply preserves_same].
    apply preserves_seq; [|intros _].
    + unfold BasicAdding2.gap_cancel.
      apply preserves_test; intros _; [|by apply preserves_same].
      apply preserves_seq;
        [apply preserves_same; by destruct (getitem_oid st)|].
      intros oid. apply cancel_order_preserves.
    + unfold BasicAdding2.gap_place.
      apply preserves_seq; [by apply preserves_same|]. intros current.
      apply preserves_test; intros _; [|by apply preserves_same].
      apply preserves_seq; [by apply preserves_same|].
      intros [pos|]; [|by apply preserves_same].
      apply preserves_test; [by intros _; apply preserves_same|].
      intros Hsz%Rltb_false. by apply place_order_preserves, Hallowed.
  - apply drift_check_preserves.
  - intros _. unfold BasicAdding2.maybe_place.
    apply preserves_seq; [by apply preserves_same|]. intros current.
    apply preserves_test; intros _; [|by apply preserves_same].
    apply preserves_seq; [by apply preserves_same|].
    intros [pos|]; [|by apply preserves_same].
    apply preserves_test; [by intros _; apply preserves_same|].
    intros Hsz%Rltb_false. by apply place_order_preserves, Hallowed.
Qed.

(** In basic_adding_3 an order is placed without any test. *)
Lemma side3_preserves (mid_price spread : R) :
  (forall sz price, allowed sz price) ->
  preserves I (BasicAdding3.on_book_update_side env mid_price spread side).
Proof.
  intros Hallowed. unfold BasicAdding3.on_book_update_side.
  apply preserves_seq; [by apply preserves_same|]. intros pos.
  apply preserves_seq.
  { apply preserves_same. intros w.
    by destruct (AvellanedaStoikov.calculate_quotes _ _ _ _ _ _). }
  intros quotes. destruct (if Side_eqb side B then _ else _) as [qp qs].
  apply preserves_seq; [by apply preserves_same|]. intros st.
  apply preserves_seq; [apply drift_check_preserves|]. intros _.
  unfold BasicAdding3.maybe_place.
  apply preserves_seq; [by apply preserves_same|]. intros current.
  apply preserves_test; intros _; [|by apply preserves_same].
  by apply place_order_preserves.
Qed.
End SideInvariant.

(** ** More on the quote formulas *)

Section QuoteExtras.
Import AvellanedaStoikov.

(** The two quoted prices are placed symmetrically around the mid price,
    whatever the inventory, and are 2*lambda + q*delta - gamma*s apart. *)
Theorem quotes_centred_on_mid (self : AvellanedaStoikovMarketMaker)
    (mid s q vol dt : R) :
  k self <> 0 ->
  exists quotes,
    calculate_quotes self mid s q vol dt = Returns quotes
    /\ (fst (bid quotes) + fst (ask quotes)) / 2 = mid
    /\ fst (ask quotes) - fst (bid quotes)
       = 2 * (k self * exp (- r self * dt))
         + q * (gamma self * vol ^ 2 * dt) - gamma self * s.
Proof.
  intros Hk. eexists. split; [by apply calculate_quotes_returns|].
  cbn [bid ask fst snd]. split; lra.
Qed.

Lemma quotes_centred_on_mid_witness :
  exists quotes,
    calculate_quotes (mkMarketMaker 1 1 0) 100 2 3 1 1 = Returns quotes
    /\ (fst (bid quotes) + fst (ask quotes)) / 2 = 100
    /\ fst (ask quotes) - fst (bid quotes)
       = 2 * (1 * exp (- 0 * 1)) + 3 * (1 * 1 ^ 2 * 1) - 1 * 2.
Proof.
  apply (quotes_centred_on_mid (mkMarketMaker 1 1 0) 100 2 3 1 1).
  cbn. lra.
Defined.

(** With the parameters of basic_adding_3 the bid quote is above the ask
    quote as soon as 0.005 * spread exceeds 0.002 + inventory * 1e-7. *)
Theorem market_maker_quotes_cross (mid_price spread inventory : R) :
  BasicAdding3.GAMMA * spread
  > 2 * BasicAdding3.K
    + inventory
      * (BasicAdding3.GAMMA * BasicAdding3.VOL ^ 2 * BasicAdding3.DT) ->
  exists quotes,
    calculate_quotes BasicAdding3.market_maker mid_price spread inventory
      BasicAdding3.VOL BasicAdding3.DT = Returns quotes
    /\ fst (bid quotes) > fst (ask quotes).
Proof.
  intros Hwide. eexists. split.
  - apply calculate_quotes_returns.
    unfold BasicAdding3.market_maker, BasicAdding3.K. cbn. lra.
  - cbn [bid ask fst snd BasicAdding3.market_maker gamma k r].
    assert (Hexp : exp (- BasicAdding3.R_ * BasicAdding3.DT) < 1).
    { rewrite <- exp_0. apply exp_increasing.
      unfold BasicAdding3.R_, BasicAdding3.DT. lra. }
    assert (HK : 0 < BasicAdding3.K) by (unfold BasicAdding3.K; lra).
    assert (Hl : BasicAdding3.K * exp (- BasicAdding3.R_ * BasicAdding3.DT)
                 < BasicAdding3.K).
    { rewrite <- (Rmult_1_r BasicAdding3.K) at 2.
      by apply Rmult_lt_compat_l. }
    lra.
Qed.

Lemma market_maker_quotes_cross_witness :
  exists quotes,
    calculate_quotes BasicAdding3.market_maker 10.5 1 0
      BasicAdding3.VOL BasicAdding3.DT = Returns quotes
    /\ fst (bid quotes) > fst (ask quotes).
Proof.
  apply (market_maker_quotes_cross 10.5 1 0).
  unfold BasicAdding3.GAMMA, BasicAdding3.K, BasicAdding3.VOL,
    BasicAdding3.DT. lra.
Defined.
End QuoteExtras.

(** ** More on the reconciliation cycle *)

Lemma state_oid_elem (expected : ProvideState -> bool) (st : ProvideState)
    (oid : Z) :
  oid ∈ state_oid expected st
  <-> expected st = true /\ getitem_oid st = Returns oid.
Proof.
  unfold state_oid. destruct (expected st);
    [|split; [by intros ?%not_elem_of_empty | by intros [? _]]].
  destruct (getitem_oid st) as [v|e].
  - rewrite elem_of_singleton. split.
    + by intros ->.
    + intros [_ H]. by inversion H.
  - split; [by intros ?%not_elem_of_empty | by intros [_ H]].
Qed.

Lemma ok_oids_elem (expected : ProvideState -> bool) (w : Run) (oid : Z) :
  oid ∈ ok_oids expected w
  <-> oid ∈ dom (recently_cancelled_oid_to_time (self w))
      \/ exists side,
           expected (provide_state (self w) side) = true
           /\ getitem_oid (provide_state (self w) side) = Returns oid.
Proof.
  unfold ok_oids. rewrite !elem_of_union, !state_oid_elem. split.
  - intros [H|[H|H]]; eauto.
  - intros [H|[[|] H]]; eauto.
Qed.

Lemma poll_cycle_cancels (env : Env) (COIN : string)
    (expected : ProvideState -> bool) (w : Run) (q : Request) :
  has_oid expected ->
  In q (issued (poll_cycle env COIN expected) w)
  <-> exists o,
        In o (open_orders_at env (calls w))
        /\ q = CancelReq COIN (open_oid o)
        /\ open_coin o = COIN
        /\ (open_oid o ∉ dom (recently_cancelled_oid_to_time (self w)))
        /\ forall side,
             expected (provide_state (self w) side) = true ->
             getitem_oid (provide_state (self w) side)
             <> Returns (open_oid o).
Proof.
  intros Hex. rewrite poll_cycle_issued by done. rewrite in_map_iff.
  split.
  - intros (o & <- & [Hin Horphan]%filter_In). exists o.
    unfold orphan in Horphan. apply andb_true_iff in Horphan as [Hc Hn].
    apply String.eqb_eq in Hc. apply negb_true_iff in Hn.
    apply bool_decide_eq_false in Hn. rewrite ok_oids_elem in Hn.
    unfold cancel_of. rewrite Hc. repeat split; try done.
    + intros H. apply Hn. by left.
    + intros side He Hoid. apply Hn. right. eauto.
  - intros (o & Hin & -> & Hc & Hreg & Hst). exists o.
    unfold cancel_of. rewrite Hc. split; [done|].
    apply filter_In. split; [done|]. unfold orphan.
    apply andb_true_iff. split; [by apply String.eqb_eq|].
    apply negb_true_iff, bool_decide_eq_false. rewrite ok_oids_elem.
    intros [H|(side & He & Hoid)]; [done|]. by apply (Hst side).
Qed.

(** A cycle of either poller ends normally whatever the exchange answers,
    leaves the state of both sides as it is, and sends exactly the cancels
    of the listed orders of the instrument whose id is neither a key of the
    registry nor the id held by the state of a side (in basic_adding_3: by a
    resting state); it never sends an order. *)
Theorem poll_cancels_exactly_the_orphans (env : Env) (w : Run) :
  (fst (BasicAdding2.poll env w) = Normal tt
   /\ provide_state (self (snd (BasicAdding2.poll env w)))
      = provide_state (self w)
   /\ forall q,
        In q (issued (BasicAdding2.poll env) w)
        <-> exists o,
              In o (open_orders_at env (calls w))
              /\ q = CancelReq "ARB" (open_oid o)
              /\ open_coin o = "ARB"
              /\ (open_oid o ∉ dom (recently_cancelled_oid_to_time (self w)))
              /\ forall side,
                   getitem_oid (provide_state (self w) side)
                   <> Returns (open_oid o))
  /\ (fst (BasicAdding3.poll env w) = Normal tt
      /\ provide_state (self (snd (BasicAdding3.poll env w)))
         = provide_state (self w)
      /\ forall q,
           In q (issued (BasicAdding3.poll env) w)
           <-> exists o,
                 In o (open_orders_at env (calls w))
                 /\ q = CancelReq "INJ" (open_oid o)
                 /\ open_coin o = "INJ"
                 /\ (open_oid o
                     ∉ dom (recently_cancelled_oid_to_time (self w)))
                 /\ forall side px,
                      provide_state (self w) side
                      <> Resting px (open_oid o)).
Proof.
  split.
  - unfold BasicAdding2.poll.
    rewrite (poll_cycle_run _ _ _ _ has_oid_resting_or_gap).
    split; [done|]. split; [done|]. intros q.
    rewrite (poll_cycle_cancels _ _ _ _ _ has_oid_resting_or_gap).
    split; intros (o & Hin & Hq & Hc & Hreg & Hst); exists o;
      repeat split; try done.
    intros side Hoid. apply (Hst side); [|done].
    destruct (provide_state (self w) side); cbn in *; done.
  - unfold BasicAdding3.poll.
    rewrite (poll_cycle_run _ _ _ _ has_oid_resting).
    split; [done|]. split; [done|]. intros q.
    rewrite (poll_cycle_cancels _ _ _ _ _ has_oid_resting).
    split; intros (o & Hin & Hq & Hc & Hreg & Hst); exists o;
      repeat split; try done.
    + intros side px Hrest. apply (Hst side); by rewrite Hrest.
    + intros side He Hoid.
      destruct (provide_state (self w) side) eqn:Hs; cbn in *; try done.
      inversion Hoid. subst. by apply (Hst side px).
Qed.

Lemma find_position_first (c : string) (before later : list AssetPosition)
    (p : AssetPosition) :
  (forall x, In x before -> position_coin x <> c) ->
  position_coin p = c ->
  find_position c (before ++ p :: later) = Some p.
Proof.
  intros Hbefore Hp. unfold find_position.
  induction before as [|x before IH]; cbn.
  - apply String.eqb_eq in Hp. by rewrite Hp.
  - destruct (position_coin x =? c)%string eqn:Hx.
    + apply String.eqb_eq in Hx. destruct (Hbefore x); [by left|done].
    + apply IH. intros y Hy. apply Hbefore. by right.
Qed.

Lemma find_position_none (c : string) (l : list AssetPosition) :
  (forall x, In x l -> position_coin x <> c) -> find_position c l = None.
Proof.
  intros Hnone. unfold find_position.
  induction l as [|x rest IH]; [done|]. cbn.
  destruct (position_coin x =? c)%string eqn:Hx.
  - apply String.eqb_eq in Hx. destruct (Hnone x); [by left|done].
  - apply IH. intros y Hy. apply Hnone. by right.
Qed.

(** How a cycle refreshes the position: the first entry of the instrument
    gives the new position, later ones are not looked at, and without any
    entry of the instrument the position is left as it was. *)
Theorem poll_refreshes_position (poll : Env -> M unit) (COIN : string)
    (env : Env) (entries : list AssetPosition) (w : Run) :
  (poll = BasicAdding2.poll /\ COIN = BasicAdding2.COIN)
  \/ (poll = BasicAdding3.poll /\ COIN = BasicAdding3.COIN) ->
  (forall n, user_state_at env n = entries) ->
  let after_poll := position (self (snd (poll env w))) in
  (forall before p later,
     entries = before ++ p :: later ->
     (forall x, In x before -> position_coin x <> COIN) ->
     position_coin p = COIN ->
     after_poll = Some (szi p))
  /\ ((forall x, In x entries -> position_coin x <> COIN) ->
      after_poll = position (self w)).
Proof.
  intros Hpoll Hentries after_poll.
  assert (Hafter : after_poll
                   = match find_position COIN entries with
                     | Some p => Some (szi p)
                     | None => position (self w)
                     end).
  { subst after_poll.
    destruct Hpoll as [[-> ->] | [-> ->]];
      unfold BasicAdding2.poll, BasicAdding3.poll;
      [rewrite (poll_cycle_run _ _ _ _ has_oid_resting_or_gap)
      |rewrite (poll_cycle_run _ _ _ _ has_oid_resting)];
      cbn; by rewrite Hentries. }
  rewrite Hafter. split.
  - intros before p later -> Hbefore Hp.
    by rewrite find_position_first.
  - intros Hnone. by rewrite find_position_none.
Qed.

Lemma poll_refreshes_position_witness :
  let env :=
    fixed_env 0 accepted (resting_ack 1) []
      [mkAssetPosition "ETH" 1; mkAssetPosition "ARB" 7;
       mkAssetPosition "ARB" 9] in
  position (self (snd (BasicAdding2.poll env init))) = Some 7%R.
Proof.
  intros env.
  destruct (poll_refreshes_position BasicAdding2.poll BasicAdding2.COIN env
              [mkAssetPosition "ETH" 1; mkAssetPosition "ARB" 7;
               mkAssetPosition "ARB" 9] init) as [Hfirst _].
  - left. done.
  - done.
  - apply (Hfirst [mkAssetPosition "ETH" 1] (mkAssetPosition "ARB" 7)
             [mkAssetPosition "ARB" 9]).
    + reflexivity.
    + intros x [<- | []]. cbn. discriminate.
    + reflexivity.
Defined.

(** ** basic_adding_2 on a flat account *)

Lemma cancels_are_no_orders (l : list OpenOrder) :
  List.filter is_order (map cancel_of l) = [].
Proof. induction l as [|o rest IH]; [done|]. cbn. exact IH. Qed.

Lemma poll_preserves_unknown (env : Env) (orders : list Request) :
  (forall n x, In x (user_state_at env n) ->
     position_coin x <> BasicAdding2.COIN) ->
  preserves (unknown_with_orders orders) (BasicAdding2.poll env).
Proof.
  intros Hflat w [Hpos Hsent]. unfold BasicAdding2.poll.
  rewrite (poll_cycle_run _ _ _ _ has_oid_resting_or_gap).
  split; cbn.
  - rewrite find_position_none; [done|]. apply Hflat.
  - by rewrite List.filter_app, cancels_are_no_orders, app_nil_r.
Qed.

(** A flat account is never quoted: from a fresh object of basic_adding_2,
    as long as the user state lists no position of the instrument, the
    position stays unknown and no order is ever sent, over any sequence of
    book updates, user events and cycles of the poller. *)
Theorem flat_account_never_quotes (env : Env) (events : list Event) :
  (forall n x, In x (user_state_at env n) ->
     position_coin x <> BasicAdding2.COIN) ->
  let w := after (map (handle2 env) events) init in
  position (self w) = None /\ List.filter is_order (sent w) = [].
Proof.
  intros Hflat.
  assert (Hinit : unknown_with_orders [] init) by done.
  revert Hinit. generalize init.
  induction events as [|e rest IH]; intros v Hv; [done|].
  cbn. apply IH. destruct e as [book_data|user_events_data|]; cbn.
  - by apply preserves_on_book_update.
  - destruct Hv as [_ Hsent]. unfold on_user_events.
    by destruct (fills user_events_data).
  - by apply poll_preserves_unknown.
Qed.

Lemma flat_account_never_quotes_witness :
  let env := fixed_env 0 accepted (resting_ack 1) [] [] in
  let w :=
    after
      (map (handle2 env)
         [PollCycle; BookUpdate (top_of_book "ARB" 1000 1001); PollCycle;
          BookUpdate (top_of_book "ARB" 1000 1004)])
      init in
  position (self w) = None /\ List.filter is_order (sent w) = [].
Proof.
  intros env.
  apply (flat_account_never_quotes env).
  intros n x [].
Defined.

(** ** More on one side's iteration *)

(** The iteration of one side never changes the state of the other side,
    in either file and whatever the exchange answers. *)
Theorem other_side_untouched (env : Env) (book_data : L2BookData)
    (mid_price spread : R) (side other : Side) (w : Run) :
  other <> side ->
  provide_state
    (self (snd (BasicAdding2.on_book_update_side env book_data side w))) other
  = provide_state (self w) other
  /\ provide_state
       (self (snd (BasicAdding3.on_book_update_side env mid_price spread side
                     w))) other
     = provide_state (self w) other.
Proof.
  intros Hother.
  set (I := fun v : Run =>
              provide_state (self v) other = provide_state (self w) other).
  assert (Hstate : forall st, preserves I (set_provide_state side st)).
  { intros st v Hv. unfold I in *. cbn. by rewrite update_side_other. }
  split.
  - apply (side2_preserves env side I (fun _ _ => True)); try done;
      by intros; intros v Hv.
  - apply (side3_preserves env side I (fun _ _ => True)); try done;
      by intros; intros v Hv.
Qed.

Lemma other_side_untouched_witness :
  let env := fixed_env 5000 accepted (resting_ack 1) [] [] in
  let w := with_state A (Resting 1003 4) (with_position (Some 0) init) in
  provide_state
    (self (snd (BasicAdding2.on_book_update_side env
                  (top_of_book "ARB" 1000 1001) B w))) A
  = provide_state (self w) A
  /\ provide_state
       (self (snd (BasicAdding3.on_book_update_side env 1000.5 1 B w))) A
     = provide_state (self w) A.
Proof.
  intros env w.
  apply (other_side_untouched env (top_of_book "ARB" 1000 1001) 1000.5 1 B A
           w).
  discriminate.
Defined.

(** Every order that the iteration of a side sends in basic_adding_2 is an
    order of that side whose size times unrounded price is at least 10,
    whatever the state, the book and the replies. *)
Theorem orders_clear_minimum_notional (env : Env) (book_data : L2BookData)
    (side : Side) (w : Run) (q : Request) :
  In q (issued (BasicAdding2.on_book_update_side env book_data side) w) ->
  match q with
  | CancelReq _ _ => True
  | OrderReq _ is_buy sz px =>
      is_buy = Side_eqb side B
      /\ exists price, px = round_5g env price /\ 10 <= sz * price
  end.
Proof.
  set (I := fun v : Run =>
              exists reqs,
                sent v = sent w ++ reqs
                /\ Forall (order_of_side env side) reqs).
  assert (Hgrow : forall q0 v,
            order_of_side env side q0 -> I v ->
            I {| self := self v; calls := S (calls v);
                 sent := sent v ++ [q0]; fills_file := fills_file v |}).
  { intros q0 v Hq0 (reqs & Hs & Hall). exists (reqs ++ [q0]). cbn.
    rewrite Hs, <- app_assoc. split; [done|].
    apply Forall_app. split; [done|]. by constructor. }
  assert (Hsame : forall (f : BasicAdder -> BasicAdder) v,
            I v ->
            I {| self := f (self v); calls := calls v; sent := sent v;
                 fills_file := fills_file v |}).
  { by intros f v (reqs & Hs & Hall); exists reqs. }
  assert (Hside : preserves I
            (BasicAdding2.on_book_update_side env book_data side)).
  { apply (side2_preserves env side I (fun sz price => ~ sz * price < 10)).
    - intros v (reqs & Hs & Hall). exists reqs. cbn. by rewrite app_nil_r.
    - intros c oid v Hv. by apply Hgrow.
    - intros c sz price Hok v Hv. apply Hgrow; [|done]. cbn.
      split; [done|]. exists price. split; [done|]. lra.
    - intros st v Hv. by apply (Hsame (fun _ => _)).
    - intros oid t v Hv. by apply (Hsame (fun _ => _)).
    - intros v Hv. by apply (Hsame (fun _ => _)).
    - done. }
  destruct (Hside w) as (reqs & Hs & Hall).
  { exists []. by rewrite app_nil_r. }
  rewrite (issued_app _ _ _ Hs). intros Hq.
  rewrite Forall_forall in Hall. apply Hall. by apply list_elem_of_In.
Qed.

Lemma orders_clear_minimum_notional_witness :
  let env := fixed_env 5000 accepted (resting_ack 1) [] [] in
  Side_eqb B B = Side_eqb B B
  /\ exists price,
       round_5g env
         (BasicAdding2.gap_price B 1000 1004 (1000 * BasicAdding2.DEPTH))
       = round_5g env price
       /\ 10 <= (BasicAdding2.MAX_POSITION + 0 * IZR (-1)) * price.
Proof.
  intros env.
  pose proof (cancelled_side_order env "ARB" (mkLevel 1000 1)
                (mkLevel 1004 1) [] [] [] B 0 (with_position (Some 0) init)
                eq_refl eq_refl) as Hsent.
  cbn [top_px side_to_int level_px] in Hsent.
  assert (Hgap : BasicAdding2.gap_condition 1000 1004
                   (1000 * BasicAdding2.DEPTH) = true).
  { apply gap_condition_true. unfold BasicAdding2.DEPTH. lra. }
  rewrite Hgap in Hsent.
  apply (orders_clear_minimum_notional env
           (book_with "ARB" (mkLevel 1000 1) (mkLevel 1004 1) [] [] []) B
           (with_position (Some 0) init)
           (OrderReq BasicAdding2.COIN (Side_eqb B B)
              (BasicAdding2.MAX_POSITION + 0 * IZR (-1))
              (round_5g env
                 (BasicAdding2.gap_price B 1000 1004
                    (1000 * BasicAdding2.DEPTH))))).
  rewrite Hsent; [by left|].
  unfold BasicAdding2.gap_price, BasicAdding2.MAX_POSITION,
    BasicAdding2.DEPTH. lra.
Defined.

Section Side3Extras.
Import BasicAdding3.
Variables (env : Env) (mid_price spread : R) (side : Side).

(** A side in flight for at most 10 s is left alone; after that it gets a
    new order and no cancel. *)
Lemma in_flight_young (time : Z) (w : Run) :
  provide_state (self w) side = InFlightOrder time ->
  (timestamp_at env (calls w) - time <= 10000)%Z ->
  on_book_update_side env mid_price spread side w
  = (Normal tt,
     {| self := self w; calls := S (calls w); sent := sent w;
        fills_file := fills_file w |}).
Proof.
  intros Hstate Hage.
  destruct (market_maker_quotes mid_price spread
              match position (self w) with Some p => p | None => 0 end)
    as (bp & bs & ap & asz & Hq).
  assert (Hyoung : (timestamp_at env (calls w) - time >? 10000)%Z = false)
    by lia.
  unfold on_book_update_side, maybe_place, drift_check. cbn.
  rewrite Hq. cbn.
  destruct side; cbn; rewrite Hstate; cbn; rewrite Hyoung; cbn;
    rewrite Hstate; cbn; by rewrite app_nil_r.
Qed.

Lemma in_flight_old (time : Z) (w : Run) :
  provide_state (self w) side = InFlightOrder time ->
  (timestamp_at env (calls w) - time > 10000)%Z ->
  exists sz px,
    issued (on_book_update_side env mid_price spread side) w
    = [OrderReq COIN (Side_eqb side B) sz px].
Proof.
  intros Hstate Hage.
  destruct (market_maker_quotes mid_price spread
              match position (self w) with Some p => p | None => 0 end)
    as (bp & bs & ap & asz & Hq).
  assert (Hold : (timestamp_at env (calls w) - time >? 10000)%Z = true)
    by lia.
  unfold on_book_update_side, maybe_place, drift_check, issued. cbn.
  rewrite Hq. cbn.
  destruct side; cbn; rewrite Hstate; cbn; rewrite Hold; cbn;
    do 2 eexists; rewrite place_order_sent; cbn;
    rewrite app_nil_r; apply drop_app_length.
Qed.

(** An order in flight is left alone for 10 s: the iteration of its side
    sends nothing and changes nothing; once older than 10 s it is replaced
    by a new order without any cancel being sent. *)
Theorem in_flight_side (time : Z) (w : Run) :
  provide_state (self w) side = InFlightOrder time ->
  let now := timestamp_at env (calls w) in
  let out := on_book_update_side env mid_price spread side w in
  ((now - time <= 10000)%Z ->
   fst out = Normal tt
   /\ issued (on_book_update_side env mid_price spread side) w = []
   /\ self (snd out) = self w)
  /\ ((now - time > 10000)%Z ->
      exists sz px,
        issued (on_book_update_side env mid_price spread side) w
        = [OrderReq COIN (Side_eqb side B) sz px]).
Proof.
  intros Hstate now out. split; intros Hage.
  - subst out. unfold issued. rewrite (in_flight_young time w Hstate Hage).
    cbn. by rewrite drop_all.
  - by apply (in_flight_old time).
Qed.

(** A rejected order is not retried for 10 s: when the reply to the
    order of a cancelled side does not have status "ok", the side stays in
    flight, and the next iteration of that side sends nothing as long as the
    clock has not advanced by more than 10 s. *)
Theorem rejected_order_not_retried (w : Run) :
  provide_state (self w) side = Cancelled ->
  order_status (order_at env (S (calls w))) <> "ok" ->
  (timestamp_at env (S (S (calls w))) - timestamp_at env (calls w)
   <= 10000)%Z ->
  let w1 := snd (on_book_update_side env mid_price spread side w) in
  provide_state (self w1) side = InFlightOrder (timestamp_at env (calls w))
  /\ position (self w1) = position (self w)
  /\ issued (on_book_update_side env mid_price spread side) w1 = [].
Proof.
  intros Hstate Hrejected%String.eqb_neq Hclock w1.
  destruct (market_maker_quotes mid_price spread
              match position (self w) with Some p => p | None => 0 end)
    as (bp & bs & ap & asz & Hq).
  assert (Hw1 : provide_state (self w1) side
                = InFlightOrder (timestamp_at env (calls w))
                /\ position (self w1) = position (self w)
                /\ calls w1 = S (S (calls w))).
  { subst w1.
    unfold on_book_update_side, maybe_place, drift_check, place_order. cbn.
    rewrite Hq. cbn.
    destruct side; cbn; rewrite Hstate; cbn; rewrite Hstate; cbn;
      rewrite Hrejected; cbn; done. }
  destruct Hw1 as (Hflight & Hpos & Hcalls).
  split; [done|]. split; [done|].
  unfold issued. rewrite (in_flight_young _ w1 Hflight).
  - cbn. by rewrite drop_all.
  - by rewrite Hcalls.
Qed.

(** In basic_adding_3 orders of negative size are sent: a cancelled side whose
    size 100 + position * side_to_int(side) is negative gets an order of that
    size. *)
Theorem negative_size_order (p : R) (w : Run) :
  provide_state (self w) side = Cancelled ->
  position (self w) = Some p ->
  MAX_POSITION + p * IZR (side_to_int side) < 0 ->
  exists sz px,
    issued (on_book_update_side env mid_price spread side) w
    = [OrderReq COIN (Side_eqb side B) sz px]
    /\ sz < 0.
Proof.
  intros Hstate Hpos Hneg.
  destruct (cancelled_side_gets_order env mid_price spread side w Hstate)
    as [px Hpx].
  rewrite Hpos in Hpx. eauto.
Qed.
End Side3Extras.

Lemma in_flight_side_witness :
  let env := fixed_env 5000 accepted (resting_ack 1) [] [] in
  let w := with_state B (InFlightOrder 0) init in
  let out := BasicAdding3.on_book_update_side env 10.5 1 B w in
  fst out = Normal tt
  /\ issued (BasicAdding3.on_book_update_side env 10.5 1 B) w = []
  /\ self (snd out) = self w.
Proof.
  intros env w.
  destruct (in_flight_side env 10.5 1 B 0%Z w eq_refl) as [Hyoung _].
  apply Hyoung. cbn. lia.
Defined.

Lemma rejected_order_not_retried_witness :
  let env := fixed_env 5000 accepted (mkOrderResponse "err" []) [] [] in
  let w1 := snd (BasicAdding3.on_book_update_side env 10.5 1 A init) in
  provide_state (self w1) A = InFlightOrder 5000
  /\ position (self w1) = position (self init)
  /\ issued (BasicAdding3.on_book_update_side env 10.5 1 A) w1 = [].
Proof.
  intros env.
  apply (rejected_order_not_retried env 10.5 1 A init).
  - reflexivity.
  - cbn. discriminate.
  - cbn. lia.
Defined.

Lemma negative_size_order_witness :
  let env := fixed_env 5000 accepted (resting_ack 1) [] [] in
  let w := with_position (Some (-150)) init in
  exists sz px,
    issued (BasicAdding3.on_book_update_side env 10.5 1 A) w
    = [OrderReq BasicAdding3.COIN (Side_eqb A B) sz px]
    /\ sz < 0.
Proof.
  intros env w.
  apply (negative_size_order env 10.5 1 A (-150) w).
  - reflexivity.
  - reflexivity.
  - unfold BasicAdding3.MAX_POSITION. cbn. lra.
Defined.

(** ** More on basic_adding_2 *)

Section Side2Extras.
Import BasicAdding2.
Variable env : Env.


(** A book message without a best bid or without a best ask makes the
    iteration of either side raise IndexError before anything is sent or
    changed. *)
Theorem one_sided_book_raises (book_data : L2BookData) (side : Side)
    (w : Run) :
  ~ two_sided book_data ->
  on_book_update_side env book_data side w = (Raise IndexError, w)
  /\ (coin book_data = BasicAdding3.COIN ->
      BasicAdding3.on_book_update env book_data w = (Raise IndexError, w)).
Proof.
  intros Hbook. unfold two_sided in Hbook.
  unfold on_book_update_side, BasicAdding3.on_book_update.
  destruct book_data as [c [|[|bid0 bids] [|[|ask0 asks] more]]]; cbn.
  all: try (destruct Hbook; by do 5 eexists).
  all: split;
    [by destruct side
    |intros ->; by rewrite String.eqb_refl].
Qed.

(** An exception in the iteration of the first side ends the whole
    handler: the sides after it are not looked at. *)
Theorem in_flight_first_side_stops_update (c : string) (bid0 ask0 : L2Level)
    (bids asks : list L2Level) (more : list (list L2Level)) (side : Side)
    (others : list Side) (time : Z) (w : Run) :
  SIDES env = side :: others ->
  c = COIN ->
  provide_state (self w) side = InFlightOrder time ->
  level_px ask0 - level_px bid0 > 2 * (top_px bid0 ask0 side * DEPTH) ->
  on_book_update env (book_with c bid0 ask0 bids asks more) w
  = (Raise (KeyError "oid"), w).
Proof.
  intros Hsides -> Hstate Hgap%gap_condition_true.
  unfold on_book_update. cbn. rewrite Hsides.
  cbn [for_each].
  assert (Hside : on_book_update_side env
                    (book_with COIN bid0 ask0 bids asks more) side w
                  = (Raise (KeyError "oid"), w)).
  { unfold on_book_update_side, gap_cancel.
    destruct side; cbn in *; rewrite Hstate, Hgap; reflexivity. }
  by rewrite Hside.
Qed.

(** One iteration can send two cancels for one order and two orders for
    one side: when the gap test succeeds on a resting order that is also off
    target and the exchange accepts everything, the order is cancelled in
    the gap branch, a gap order is placed, the drift check cancels the old
    order again (it looks at the state read at the start), and a second
    order is placed at the ideal price; the side ends resting on the second
    order and the gap order is no longer in its state. *)
Theorem gap_and_drift_place_twice (c : string) (bid0 ask0 : L2Level)
    (bids asks : list L2Level) (more : list (list L2Level)) (side : Side)
    (p pos : R) (oid : Z) (w : Run) :
  let d := top_px bid0 ask0 side * DEPTH in
  let ideal := top_px bid0 ask0 side + d * IZR (side_to_int side) in
  let gap_px := gap_price side (level_px bid0) (level_px ask0) d in
  let sz := MAX_POSITION + pos * IZR (side_to_int side) in
  accepting env ->
  provide_state (self w) side = Resting p oid ->
  position (self w) = Some pos ->
  level_px ask0 - level_px bid0 > 2 * d ->
  Rabs (ideal - p) > ALLOWABLE_DEVIATION * d ->
  10 <= sz * gap_px ->
  10 <= sz * ideal ->
  let out :=
    on_book_update_side env (book_with c bid0 ask0 bids asks more) side w in
  issued (on_book_update_side env (book_with c bid0 ask0 bids asks more) side)
    w
  = [CancelReq COIN oid;
     OrderReq COIN (Side_eqb side B) sz (round_5g env gap_px);
     CancelReq COIN oid;
     OrderReq COIN (Side_eqb side B) sz (round_5g env ideal)]
  /\ exists new_oid,
       provide_state (self (snd out)) side
       = Resting (round_5g env ideal) new_oid.
Proof.
  intros d ideal gap_px sz Hacc Hstate Hpos Hgap%gap_condition_true
    Hdev%Rgtb_true Hn1 Hn2 out.
  assert (Hs1 : Rltb (sz * gap_px) 10 = false) by (apply Rltb_false; lra).
  assert (Hs2 : Rltb (sz * ideal) 10 = false) by (apply Rltb_false; lra).
  assert (Hcancel : forall n, (cancel_status (cancel_at env n) =? "ok")%string
                              = true).
  { intros n. apply String.eqb_eq, Hacc. }
  assert (Horder : forall n, (order_status (order_at env n) =? "ok")%string
                             = true).
  { intros n. apply String.eqb_eq, Hacc. }
  destruct (Hacc (S (S (S (calls w))))) as (_ & _ & o1 & m1 & Ho1).
  destruct (Hacc (S (S (S (S (S (S (S (calls w)))))))))
    as (_ & _ & o2 & m2 & Ho2).
  subst out d ideal gap_px sz. unfold issued.
  unfold on_book_update_side, gap_cancel, gap_place, maybe_place,
    drift_check, cancel_order, place_order.
  destruct side; cbn in *; rewrite Hstate, Hgap; cbn;
    rewrite !Hcancel; cbn; rewrite Hpos, Hs1; cbn;
    rewrite !Horder, Ho1; cbn; rewrite Hdev; cbn;
    rewrite !Hcancel; cbn; rewrite Hs2; cbn;
    rewrite !Horder, Ho2; cbn;
    (split; [rewrite <- !app_assoc; cbn; apply drop_app_length|eauto]).
Qed.
End Side2Extras.


Lemma one_sided_book_raises_witness :
  let env := fixed_env 5000 accepted (resting_ack 1) [] [] in
  let book_data := mkBook "INJ" [[]; [mkLevel 11 1]] in
  BasicAdding2.on_book_update_side env book_data A init
  = (Raise IndexError, init)
  /\ (coin book_data = BasicAdding3.COIN ->
      BasicAdding3.on_book_update env book_data init
      = (Raise IndexError, init)).
Proof.
  intros env book_data.
  apply (one_sided_book_raises env book_data A init).
  intros (bid0 & bids & ask0 & asks & more & H). discriminate H.
Defined.

Lemma in_flight_first_side_stops_update_witness :
  let env := fixed_env 5000 accepted (resting_ack 1) [] [] in
  let w := with_state B (Resting 900 3) (with_state A (InFlightOrder 0) init) in
  BasicAdding2.on_book_update env
    (book_with "ARB" (mkLevel 1000 1) (mkLevel 1004 1) [] [] []) w
  = (Raise (KeyError "oid"), w).
Proof.
  intros env w.
  apply (in_flight_first_side_stops_update env "ARB" (mkLevel 1000 1)
           (mkLevel 1004 1) [] [] [] A [B] 0%Z w); try reflexivity.
  unfold BasicAdding2.DEPTH. cbn. lra.
Defined.

Lemma gap_and_drift_place_twice_witness :
  let env := fixed_env 5000 accepted (resting_ack 1) [] [] in
  let w := with_state B (Resting 998 7) (with_position (Some 0) init) in
  let book_data :=
    book_with "ARB" (mkLevel 1000 1) (mkLevel 1004 1) [] [] [] in
  let d := 1000 * BasicAdding2.DEPTH in
  let sz := BasicAdding2.MAX_POSITION + 0 * IZR (-1) in
  issued (BasicAdding2.on_book_update_side env book_data B) w
  = [CancelReq "ARB" 7;
     OrderReq "ARB" true sz (BasicAdding2.gap_price B 1000 1004 d);
     CancelReq "ARB" 7;
     OrderReq "ARB" true sz (1000 + d * IZR (-1))]
  /\ exists new_oid,
       provide_state
         (self (snd (BasicAdding2.on_book_update_side env book_data B w))) B
       = Resting (1000 + d * IZR (-1)) new_oid.
Proof.
  intros env w book_data d sz.
  apply (gap_and_drift_place_twice env "ARB" (mkLevel 1000 1)
           (mkLevel 1004 1) [] [] [] B 998 0 7%Z w).
  - intros n. cbn. eauto.
  - reflexivity.
  - reflexivity.
  - unfold BasicAdding2.DEPTH. cbn. lra.
  - unfold BasicAdding2.DEPTH, BasicAdding2.ALLOWABLE_DEVIATION. cbn.
    rewrite Rabs_right; lra.
  - unfold BasicAdding2.gap_price, BasicAdding2.MAX_POSITION,
      BasicAdding2.DEPTH. cbn. lra.
  - unfold BasicAdding2.MAX_POSITION, BasicAdding2.DEPTH. cbn. lra.
Defined.
